(** * Accounts, sessions and saved models of the linear-regression trainer

    A shallow embedding of [database.py] (class [Database]),
    [controller/auth_controller.py] (class [AuthController]) and the model
    routes of [routes/auth_routes.py], together with the library routines
    they call: SHA-256 ([hashlib.sha256(...).hexdigest()]), version-4 UUIDs
    ([str(uuid.uuid4())]) and fixed-point formatting of floats ([:.4f]).

    Conventions.
    - A Python [str] is a Rocq [string] whose characters are the code points
      0..255; [str.encode()] is UTF-8 on those code points.
    - A Python [float] is a [spec_float] (sign, mantissa, exponent, with the
      two infinities and NaN).
    - [CURRENT_TIMESTAMP] is read from a clock passed to every writing call
      as a number of seconds; the random bytes of [uuid.uuid4()] are passed
      to every call that draws them.
    - A table is the list of its rows in rowid order, with the counter that
      SQLite keeps in [sqlite_sequence] for an AUTOINCREMENT key. *)

From Stdlib Require Import ZArith List String Ascii Lia SpecFloat.
From stdpp Require Import gmap strings pretty list sorting.

Local Open Scope Z_scope.

(** ** Python strings *)

Module PyStr.

(** [ord(c)] for one character. *)
Definition ord (c : ascii) : Z := Z.of_N (N_of_ascii c).

(** [chr(n)] for [0 <= n < 256]. *)
Definition chr (n : Z) : ascii := ascii_of_N (Z.to_N n).

(** UTF-8 of one code point below 256: one byte below 128, else two. *)
Definition encode_char (c : ascii) : list Z :=
  let n := ord c in
  if n <? 128 then [n]
  else [Z.lor 192 (Z.shiftr n 6); Z.lor 128 (Z.land n 63)].

(** [s.encode()] *)
Fixpoint encode (s : string) : list Z :=
  match s with
  | EmptyString => []
  | String c rest => encode_char c ++ encode rest
  end.

(** [len(s)] *)
Definition len (s : string) : Z := Z.of_nat (String.length s).

End PyStr.

(** ** SHA-256 (FIPS 180-4), as [hashlib.sha256(data).hexdigest()] *)

Module Sha256.

Definition wrap32 (x : Z) : Z := x mod 4294967296.

Definition rotr (n x : Z) : Z :=
  Z.lor (Z.shiftr x n) (wrap32 (Z.shiftl x (32 - n))).

Definition choose (x y z : Z) : Z :=
  Z.lxor (Z.land x y) (Z.land (Z.lxor x 4294967295) z).

Definition majority (x y z : Z) : Z :=
  Z.lxor (Z.lxor (Z.land x y) (Z.land x z)) (Z.land y z).

Definition big_sigma0 (x : Z) : Z :=
  Z.lxor (Z.lxor (rotr 2 x) (rotr 13 x)) (rotr 22 x).

Definition big_sigma1 (x : Z) : Z :=
  Z.lxor (Z.lxor (rotr 6 x) (rotr 11 x)) (rotr 25 x).

Definition small_sigma0 (x : Z) : Z :=
  Z.lxor (Z.lxor (rotr 7 x) (rotr 18 x)) (Z.shiftr x 3).

Definition small_sigma1 (x : Z) : Z :=
  Z.lxor (Z.lxor (rotr 17 x) (rotr 19 x)) (Z.shiftr x 10).

(** Round constants: the first 32 bits of the fractional parts of the cube
    roots of the first 64 primes. *)
Definition round_constants : list Z :=
  [ 1116352408; 1899447441; 3049323471; 3921009573;
    961987163; 1508970993; 2453635748; 2870763221;
    3624381080; 310598401; 607225278; 1426881987;
    1925078388; 2162078206; 2614888103; 3248222580;
    3835390401; 4022224774; 264347078; 604807628;
    770255983; 1249150122; 1555081692; 1996064986;
    2554220882; 2821834349; 2952996808; 3210313671;
    3336571891; 3584528711; 113926993; 338241895;
    666307205; 773529912; 1294757372; 1396182291;
    1695183700; 1986661051; 2177026350; 2456956037;
    2730485921; 2820302411; 3259730800; 3345764771;
    3516065817; 3600352804; 4094571909; 275423344;
    430227734; 506948616; 659060556; 883997877;
    958139571; 1322822218; 1537002063; 1747873779;
    1955562222; 2024104815; 2227730452; 2361852424;
    2428436474; 2756734187; 3204031479; 3329325298 ].

(** The working variables a..h, also the chaining value. *)
Record state := State {
  sa : Z; sb : Z; sc : Z; sd : Z; se : Z; sf : Z; sg : Z; sh : Z
}.

(** Initial hash value: square roots of the first 8 primes. *)
Definition initial_state : state :=
  State 1779033703 3144134277 1013904242 2773480762
        1359893119 2600822924 528734635 1541459225.

(** Big-endian 32-bit words of a block of bytes. *)
Fixpoint words_of_bytes (bs : list Z) : list Z :=
  match bs with
  | b0 :: b1 :: b2 :: b3 :: rest =>
      (((b0 * 256 + b1) * 256 + b2) * 256 + b3) :: words_of_bytes rest
  | _ => []
  end.

(** One more word of the message schedule, appended to the words so far. *)
Definition extend_schedule (ws : list Z) : list Z :=
  let t := length ws in
  let w k := nth (t - k)%nat ws 0 in
  ws ++ [wrap32 (small_sigma1 (w 2%nat) + w 7%nat
                 + small_sigma0 (w 15%nat) + w 16%nat)].

Definition schedule (block : list Z) : list Z :=
  Nat.iter 48 extend_schedule (words_of_bytes block).

Definition round (s : state) (kw : Z * Z) : state :=
  let t1 := sh s + big_sigma1 (se s) + choose (se s) (sf s) (sg s)
            + fst kw + snd kw in
  let t2 := big_sigma0 (sa s) + majority (sa s) (sb s) (sc s) in
  State (wrap32 (t1 + t2)) (sa s) (sb s) (sc s)
        (wrap32 (sd s + t1)) (se s) (sf s) (sg s).

Definition compress (h : state) (block : list Z) : state :=
  let s := fold_left round (combine round_constants (schedule block)) h in
  State (wrap32 (sa h + sa s)) (wrap32 (sb h + sb s))
        (wrap32 (sc h + sc s)) (wrap32 (sd h + sd s))
        (wrap32 (se h + se s)) (wrap32 (sf h + sf s))
        (wrap32 (sg h + sg s)) (wrap32 (sh h + sh s)).

(** The [n] low bytes of [x], most significant first. *)
Fixpoint big_endian (n : nat) (x : Z) : list Z :=
  match n with
  | O => []
  | S k => big_endian k (x / 256) ++ [x mod 256]
  end.

(** Padding: a 1 bit, zeros up to 56 mod 64, the bit length on 8 bytes. *)
Definition pad (msg : list Z) : list Z :=
  let n := Z.of_nat (length msg) in
  msg ++ [128] ++ repeat 0 (Z.to_nat ((55 - n) mod 64))
      ++ big_endian 8 (8 * n).

(** Consecutive 64-byte blocks; [fuel] bounds their number. *)
Fixpoint blocks (fuel : nat) (bs : list Z) : list (list Z) :=
  match fuel, bs with
  | S k, _ :: _ => take 64 bs :: blocks k (drop 64 bs)
  | _, _ => []
  end.

Definition digest_state (msg : list Z) : state :=
  let p := pad msg in
  fold_left compress (blocks (length p) p) initial_state.

Definition hex_digit (n : Z) : ascii :=
  if n <? 10 then PyStr.chr (48 + n) else PyStr.chr (87 + n).

(** The [n] low hexadecimal digits of [x], most significant first. *)
Fixpoint hex (n : nat) (x : Z) : string :=
  match n with
  | O => EmptyString
  | S k => hex k (x / 16) +:+ String (hex_digit (x mod 16)) EmptyString
  end.

Definition hexdigest (msg : list Z) : string :=
  let s := digest_state msg in
  hex 8 (sa s) +:+ hex 8 (sb s) +:+ hex 8 (sc s) +:+ hex 8 (sd s) +:+
  hex 8 (se s) +:+ hex 8 (sf s) +:+ hex 8 (sg s) +:+ hex 8 (sh s).

End Sha256.

(** ** Python floats and the format specification [.4f] *)

Module PyFloat.

(** [num / den] rounded to the nearest integer, ties to the even one
    ([0 <= num], [0 < den]). *)
Definition round_half_even (num den : Z) : Z :=
  let q := num / den in
  let r := num mod den in
  if 2 * r <? den then q
  else if den <? 2 * r then q + 1
  else if Z.even q then q else q + 1.

(** [m * 2^e * 10^4], correctly rounded to an integer. *)
Definition scaled (m : positive) (e : Z) : Z :=
  if 0 <=? e then Z.pos m * 2 ^ e * 10000
  else round_half_even (Z.pos m * 10000) (2 ^ (- e)).

(** The [n] low decimal digits of [x], most significant first. *)
Fixpoint decimal (n : nat) (x : Z) : string :=
  match n with
  | O => EmptyString
  | S k => decimal k (x / 10) +:+ String (PyStr.chr (48 + x mod 10)) EmptyString
  end.

(** Sign, integer part, point and four digits of [q / 10^4]. *)
Definition fixed4 (neg : bool) (q : Z) : string :=
  (if neg then "-" else "") +:+ pretty (Z.to_N (q / 10000)) +:+ "."
    +:+ decimal 4 (q mod 10000).

(** [format(x, ".4f")] *)
Definition format_4f (x : spec_float) : string :=
  match x with
  | S754_nan => "nan"
  | S754_infinity s => if s then "-inf" else "inf"
  | S754_zero s => fixed4 s 0
  | S754_finite s m e => fixed4 s (scaled m e)
  end.

Definition is_nan (x : spec_float) : bool :=
  match x with S754_nan => true | _ => false end.

Definition is_finite (x : spec_float) : bool :=
  match x with S754_zero _ | S754_finite _ _ _ => true | _ => false end.

(** The literal [0.0]. *)
Definition zero : spec_float := S754_zero false.

End PyFloat.

(** ** Version-4 UUIDs: [uuid.uuid4()] and [str] of the result *)

Module UUID.

(** [int.from_bytes(bs, "big")] *)
Definition from_bytes (bs : list Z) : Z :=
  fold_left (fun acc b => acc * 256 + b) bs 0.


(** [UUID(bytes=bs, version=4).int]: the variant bits are set to binary 10
    and the version nibble to 4. *)
Definition uuid4 (bs : list Z) : Z :=
  let i := from_bytes bs in
  let i := Z.land i (Z.lnot (Z.shiftl 49152 48)) in
  let i := Z.lor i (Z.shiftl 32768 48) in
  let i := Z.land i (Z.lnot (Z.shiftl 61440 64)) in
  Z.lor i (Z.shiftl 4 76).

(** [str(u)]: the 32 hexadecimal digits in groups of 8-4-4-4-12. *)
Definition str (u : Z) : string :=
  let h := Sha256.hex 32 u in
  substring 0 8 h +:+ "-" +:+ substring 8 4 h +:+ "-" +:+
  substring 12 4 h +:+ "-" +:+ substring 16 4 h +:+ "-" +:+
  substring 20 12 h.

End UUID.

(** ** Values that cross the Python / SQLite boundary *)

(** The values a [model_data] dictionary holds: a float, or [None]. *)
Inductive pyval :=
  | PyNone
  | PyFloat (x : spec_float).

(** What a statement run by [cursor.execute] does: it completes, or it
    raises [sqlite3.IntegrityError] and leaves the database as it was. *)
Inductive sql_result (A : Type) :=
  | SqlOk (a : A)
  | IntegrityError.
Arguments SqlOk {A} a.
Arguments IntegrityError {A}.

(** ** [database.py] *)

Module Database.

(** A row of [users]. *)
Record user_row := UserRow {
  u_id : Z;
  u_username : string;
  u_password_hash : string;
  u_email : option string;
  u_created_at : Z
}.

(** A row of [models]. *)
Record model_row := ModelRow {
  m_id : Z;
  m_user_id : Z;
  m_model_name : string;
  m_theta_0 : spec_float;
  m_theta_1 : spec_float;
  m_rmse : spec_float;
  m_mae : spec_float;
  m_r2_score : spec_float;
  m_sklearn_rmse : option spec_float;
  m_sklearn_mae : option spec_float;
  m_sklearn_r2 : option spec_float;
  m_equation : string;
  m_created_at : Z
}.

(** The database file: both tables and their [sqlite_sequence] entries. *)
Record t := Db {
  users : list user_row;
  users_seq : Z;
  models : list model_row;
  models_seq : Z
}.

(** The dictionary [get_user_by_id] returns. *)
Record user_dict := UserDict {
  ud_id : Z;
  ud_username : string;
  ud_email : option string;
  ud_created_at : Z
}.

(** The dictionary [get_user_models] and [get_model_by_id] return. *)
Record model_dict := ModelDict {
  md_id : Z;
  md_model_name : string;
  md_theta_0 : spec_float;
  md_theta_1 : spec_float;
  md_rmse : spec_float;
  md_mae : spec_float;
  md_r2_score : spec_float;
  md_sklearn_rmse : option spec_float;
  md_sklearn_mae : option spec_float;
  md_sklearn_r2 : option spec_float;
  md_equation : string;
  md_created_at : Z
}.

(** [init_database] on a new file: [CREATE TABLE IF NOT EXISTS] twice. *)
Definition init_database : t := Db [] 0 [] 0.

(** The rowid an AUTOINCREMENT key gives to a new row: one more than the
    largest rowid the table has ever held. *)
Definition next_rowid (ids : list Z) (seq : Z) : Z :=
  Z.max seq (foldr Z.max 0 ids) + 1.

Definition hash_password (password : string) : string :=
  Sha256.hexdigest (PyStr.encode password).

Definition verify_password (password password_hash : string) : bool :=
  bool_decide (hash_password password = password_hash).

(** [INSERT INTO users (username, password_hash, email) VALUES (?, ?, ?)]:
    [username] is UNIQUE, and so is [email] among the rows where it is not
    NULL. *)
Definition insert_user (db : t) (now : Z)
    (username password_hash : string) (email : option string) : sql_result t :=
  if bool_decide (username ∈ u_username <$> users db) then IntegrityError
  else if bool_decide (is_Some email ∧ email ∈ u_email <$> users db)
  then IntegrityError
  else
    let id := next_rowid (u_id <$> users db) (users_seq db) in
    SqlOk (Db (users db ++ [UserRow id username password_hash email now]) id
              (models db) (models_seq db)).

Definition create_user (db : t) (now : Z)
    (username password : string) (email : option string) : bool * t :=
  let password_hash := hash_password password in
  match insert_user db now username password_hash email with
  | SqlOk db' => (true, db')
  | IntegrityError => (false, db)
  end.

Definition authenticate_user (db : t) (username password : string) : option Z :=
  match List.find (fun r => bool_decide (u_username r = username)) (users db) with
  | Some result =>
      if verify_password password (u_password_hash result)
      then Some (u_id result) else None
  | None => None
  end.

Definition get_user_by_id (db : t) (user_id : Z) : option user_dict :=
  match List.find (fun r => bool_decide (u_id r = user_id)) (users db) with
  | Some result =>
      Some (UserDict (u_id result) (u_username result) (u_email result)
                     (u_created_at result))
  | None => None
  end.

(** [model_data.get(key, 0.0)] *)
Definition get_or_zero (model_data : gmap string pyval) (key : string) : pyval :=
  default (PyFloat PyFloat.zero) (model_data !! key).

(** [model_data.get(key)] *)
Definition get_or_none (model_data : gmap string pyval) (key : string) : pyval :=
  default PyNone (model_data !! key).

(** [f"{v:.4f}"]; [None] stands for the [TypeError] that formatting
    Python's [None] raises. *)
Definition format_value (v : pyval) : option string :=
  match v with
  | PyFloat x => Some (PyFloat.format_4f x)
  | PyNone => None
  end.

(** The SQL value bound for a parameter: [None] and NaN are bound as NULL. *)
Definition bind_real (v : pyval) : option spec_float :=
  match v with
  | PyFloat x => if PyFloat.is_nan x then None else Some x
  | PyNone => None
  end.

(** What a REAL column gives back for a stored value: a zero is kept as the
    integer 0 and read back as [0.0], whatever its sign was. *)
Definition real_affinity (x : spec_float) : spec_float :=
  match x with
  | S754_zero _ => S754_zero false
  | _ => x
  end.

Definition same_model_key (user_id : Z) (model_name : string) (r : model_row) : Prop :=
  m_user_id r = user_id ∧ m_model_name r = model_name.

#[global] Instance same_model_key_dec user_id model_name r :
  Decision (same_model_key user_id model_name r).
Proof. unfold same_model_key. apply _. Defined.

(** [INSERT OR REPLACE INTO models (...) VALUES (...)]: a NULL in a NOT NULL
    column aborts the statement; a row with the same
    [(user_id, model_name)] is deleted before the new row is inserted. *)
Definition replace_model (db : t) (now : Z) (user_id : Z) (model_name : string)
    (theta_0 theta_1 rmse mae r2_score
       sklearn_rmse sklearn_mae sklearn_r2 : option spec_float)
    (equation : string) : sql_result t :=
  match theta_0, theta_1, rmse, mae, r2_score with
  | Some t0, Some t1, Some e1, Some e2, Some e3 =>
      let id := next_rowid (m_id <$> models db) (models_seq db) in
      let row :=
        ModelRow id user_id model_name
          (real_affinity t0) (real_affinity t1) (real_affinity e1)
          (real_affinity e2) (real_affinity e3)
          (real_affinity <$> sklearn_rmse) (real_affinity <$> sklearn_mae)
          (real_affinity <$> sklearn_r2) equation now in
      SqlOk (Db (users db) (users_seq db)
                (filter (fun r => ¬ same_model_key user_id model_name r) (models db)
                   ++ [row]) id)
  | _, _, _, _, _ => IntegrityError
  end.

Definition save_model (db : t) (now : Z) (user_id : Z) (model_name : string)
    (model_data : gmap string pyval) : bool * t :=
  match format_value (get_or_zero model_data "theta_1"),
        format_value (get_or_zero model_data "theta_0") with
  | Some s1, Some s0 =>
      let equation := "y = " +:+ s1 +:+ "x + " +:+ s0 in
      match replace_model db now user_id model_name
              (bind_real (get_or_zero model_data "theta_0"))
              (bind_real (get_or_zero model_data "theta_1"))
              (bind_real (get_or_zero model_data "rmse"))
              (bind_real (get_or_zero model_data "mae"))
              (bind_real (get_or_zero model_data "r2_score"))
              (bind_real (get_or_none model_data "sklearn_rmse"))
              (bind_real (get_or_none model_data "sklearn_mae"))
              (bind_real (get_or_none model_data "sklearn_r2"))
              equation with
      | SqlOk db' => (true, db')
      | IntegrityError => (false, db)
      end
  | _, _ => (false, db)
  end.

Definition model_dict_of_row (result : model_row) : model_dict :=
  ModelDict (m_id result) (m_model_name result) (m_theta_0 result)
    (m_theta_1 result) (m_rmse result) (m_mae result) (m_r2_score result)
    (m_sklearn_rmse result) (m_sklearn_mae result) (m_sklearn_r2 result)
    (m_equation result) (m_created_at result).

(** One step of [ORDER BY created_at DESC]: [r] goes in front of the first
    row that is not newer than it. *)
Fixpoint insert_newest_first (r : model_row) (rows : list model_row) : list model_row :=
  match rows with
  | [] => [r]
  | r' :: rest =>
      if m_created_at r' <=? m_created_at r then r :: rows
      else r' :: insert_newest_first r rest
  end.

Definition order_by_created_at_desc (rows : list model_row) : list model_row :=
  foldr insert_newest_first [] rows.

Definition get_user_models (db : t) (user_id : Z) : list model_dict :=
  let results :=
    order_by_created_at_desc (filter (fun r => m_user_id r = user_id) (models db)) in
  model_dict_of_row <$> results.

Definition owned_model (model_id user_id : Z) (r : model_row) : Prop :=
  m_id r = model_id ∧ m_user_id r = user_id.

#[global] Instance owned_model_dec model_id user_id r :
  Decision (owned_model model_id user_id r).
Proof. unfold owned_model. apply _. Defined.

Definition get_model_by_id (db : t) (model_id user_id : Z) : option model_dict :=
  match List.find (fun r => bool_decide (owned_model model_id user_id r)) (models db) with
  | Some result => Some (model_dict_of_row result)
  | None => None
  end.

Definition delete_model (db : t) (model_id user_id : Z) : bool * t :=
  let kept := filter (fun r => ¬ owned_model model_id user_id r) (models db) in
  let rowcount := Z.of_nat (length (models db)) - Z.of_nat (length kept) in
  let deleted := 0 <? rowcount in
  (deleted, Db (users db) (users_seq db) kept (models_seq db)).

End Database.

(** ** [controller/auth_controller.py] *)

(** How a controller method ends: it returns, raises [HTTPException], or
    fails with the [TypeError] of subscripting [None]. *)
Inductive outcome (A : Type) :=
  | Return (a : A)
  | HTTPException (status_code : Z) (detail : string)
  | TypeError.
Arguments Return {A} a.
Arguments HTTPException {A} status_code detail.
Arguments TypeError {A}.

(** Whether a call returned. *)
Definition returned {A : Type} (o : outcome A) : bool :=
  match o with
  | Return _ => true
  | _ => false
  end.

Module AuthController.

(** A value of [self.active_sessions]. *)
Record session := Session {
  s_user_id : Z;
  s_username : string;
  s_created_at : string
}.

(** The ["user"] entry of the signup and signin responses. *)
Record public_user := PublicUser {
  pu_id : Z;
  pu_username : string;
  pu_email : option string
}.

Record signup_response := SignupResponse {
  su_success : bool;
  su_message : string;
  su_user : public_user
}.

Record signin_response := SigninResponse {
  si_success : bool;
  si_message : string;
  si_session_id : string;
  si_user : public_user
}.

Record signout_response := SignoutResponse {
  so_success : bool;
  so_message : string
}.

(** [__init__]: no session. *)
Definition init : gmap string session := ∅.

(** [rnd] is what [os.urandom(16)] gives to [uuid.uuid4()]. *)
Definition create_session (active_sessions : gmap string session)
    (rnd : list Z) (user_id : Z) (username : string)
    : string * gmap string session :=
  let session_id := UUID.str (UUID.uuid4 rnd) in
  (session_id,
   <[session_id := Session user_id username "2024-01-01"]> active_sessions).

Definition get_session (active_sessions : gmap string session)
    (session_id : string) : option session :=
  active_sessions !! session_id.

Definition delete_session (active_sessions : gmap string session)
    (session_id : string) : gmap string session :=
  if bool_decide (session_id ∈ dom active_sessions)
  then delete session_id active_sessions
  else active_sessions.

Definition signup (db : Database.t) (now : Z)
    (username password : string) (email : option string)
    : outcome signup_response * Database.t :=
  if PyStr.len username <? 3 then
    (HTTPException 400 "Username must be at least 3 characters", db)
  else if PyStr.len password <? 6 then
    (HTTPException 400 "Password must be at least 6 characters", db)
  else
    let '(success, db) := Database.create_user db now username password email in
    if negb success then (HTTPException 400 "Username already exists", db)
    else
      (* [get_user_by_id(None)] selects no row *)
      let user :=
        match Database.authenticate_user db username password with
        | Some user_id => Database.get_user_by_id db user_id
        | None => None
        end in
      match user with
      | Some user =>
          (Return (SignupResponse true "User created successfully"
                     (PublicUser (Database.ud_id user)
                        (Database.ud_username user) (Database.ud_email user))),
           db)
      | None => (TypeError, db)
      end.

(** [not user_id] for an [Optional[int]]: [None] and [0] are false. *)
Definition is_falsy (user_id : option Z) : bool :=
  match user_id with
  | Some n => n =? 0
  | None => true
  end.

Definition signin (db : Database.t) (active_sessions : gmap string session)
    (rnd : list Z) (username password : string)
    : outcome signin_response * gmap string session :=
  let user_id := Database.authenticate_user db username password in
  if is_falsy user_id then
    (HTTPException 401 "Invalid username or password", active_sessions)
  else
    let user_id := default 0 user_id in
    match Database.get_user_by_id db user_id with
    | Some user =>
        let '(session_id, active_sessions) :=
          create_session active_sessions rnd user_id (Database.ud_username user) in
        (Return (SigninResponse true "Sign in successful" session_id
                   (PublicUser (Database.ud_id user)
                      (Database.ud_username user) (Database.ud_email user))),
         active_sessions)
    | None => (TypeError, active_sessions)
    end.

Definition signout (active_sessions : gmap string session) (session_id : string)
    : signout_response * gmap string session :=
  if bool_decide (session_id ∈ dom active_sessions) then
    (SignoutResponse true "Sign out successful",
     delete_session active_sessions session_id)
  else (SignoutResponse false "Session not found", active_sessions).

Definition get_current_user (db : Database.t)
    (active_sessions : gmap string session) (session_id : string)
    : option Database.user_dict :=
  match get_session active_sessions session_id with
  | Some session => Database.get_user_by_id db (s_user_id session)
  | None => None
  end.

Definition is_authenticated (active_sessions : gmap string session)
    (session_id : string) : bool :=
  bool_decide (session_id ∈ dom active_sessions).

End AuthController.

(** ** [routes/auth_routes.py]: the model routes and the signin cookie *)

Module Routes.

(** The [content] of a [JSONResponse]. *)
Inductive content :=
  | Failure (detail : string)
  | Success (message : string)
  | Signin (result : AuthController.signin_response)
  | Models (models : list Database.model_dict)
  | Model (model : Database.model_dict).

Record JSONResponse := Response {
  body : content;
  status_code : Z
}.

(** [set_cookie(key, value, httponly, max_age)] *)
Record cookie := Cookie {
  key : string;
  value : string;
  httponly : bool;
  max_age : Z
}.

(** [not session_id] for the cookie: absent or empty. *)
Definition no_cookie (session_id : option string) : bool :=
  match session_id with
  | Some s => bool_decide (s = "")
  | None => true
  end.

Definition signin (db : Database.t)
    (active_sessions : gmap string AuthController.session) (rnd : list Z)
    (username password : string)
    : outcome (JSONResponse * option cookie)
      * gmap string AuthController.session :=
  match AuthController.signin db active_sessions rnd username password with
  | (Return result, active_sessions) =>
      (Return (Response (Signin result) 200,
               Some (Cookie "session_id" (AuthController.si_session_id result)
                       true (3600 * 24 * 7))),
       active_sessions)
  | (HTTPException code detail, active_sessions) =>
      (Return (Response (Failure detail) code, None), active_sessions)
  | (TypeError, active_sessions) => (TypeError, active_sessions)
  end.

Definition save_model (db : Database.t)
    (active_sessions : gmap string AuthController.session) (now : Z)
    (model_name : string)
    (theta_0 theta_1 rmse mae r2_score : spec_float)
    (sklearn_rmse sklearn_mae sklearn_r2 : option spec_float)
    (session_id : option string) : JSONResponse * Database.t :=
  if no_cookie session_id then (Response (Failure "Authentication required") 401, db)
  else
    match AuthController.get_current_user db active_sessions (default "" session_id) with
    | None => (Response (Failure "Invalid session") 401, db)
    | Some user =>
        let opt v := from_option PyFloat PyNone v in
        let model_data : gmap string pyval :=
          <["sklearn_r2" := opt sklearn_r2]>
          (<["sklearn_mae" := opt sklearn_mae]>
          (<["sklearn_rmse" := opt sklearn_rmse]>
          (<["r2_score" := PyFloat r2_score]>
          (<["mae" := PyFloat mae]>
          (<["rmse" := PyFloat rmse]>
          (<["theta_1" := PyFloat theta_1]>
          (<["theta_0" := PyFloat theta_0]> ∅))))))) in
        let '(success, db) :=
          Database.save_model db now (Database.ud_id user) model_name model_data in
        if success then (Response (Success "Model saved successfully") 200, db)
        else (Response (Failure "Failed to save model") 500, db)
    end.

Definition get_user_models (db : Database.t)
    (active_sessions : gmap string AuthController.session)
    (session_id : option string) : JSONResponse :=
  if no_cookie session_id then Response (Failure "Authentication required") 401
  else
    match AuthController.get_current_user db active_sessions (default "" session_id) with
    | None => Response (Failure "Invalid session") 401
    | Some user =>
        Response (Models (Database.get_user_models db (Database.ud_id user))) 200
    end.

Definition get_model (db : Database.t)
    (active_sessions : gmap string AuthController.session)
    (model_id : Z) (session_id : option string) : JSONResponse :=
  if no_cookie session_id then Response (Failure "Authentication required") 401
  else
    match AuthController.get_current_user db active_sessions (default "" session_id) with
    | None => Response (Failure "Invalid session") 401
    | Some user =>
        match Database.get_model_by_id db model_id (Database.ud_id user) with
        | None => Response (Failure "Model not found") 404
        | Some model => Response (Model model) 200
        end
    end.

Definition delete_model (db : Database.t)
    (active_sessions : gmap string AuthController.session)
    (model_id : Z) (session_id : option string) : JSONResponse * Database.t :=
  if no_cookie session_id then (Response (Failure "Authentication required") 401, db)
  else
    match AuthController.get_current_user db active_sessions (default "" session_id) with
    | None => (Response (Failure "Authentication required") 401, db)
    | Some user =>
        let '(success, db) := Database.delete_model db model_id (Database.ud_id user) in
        if success then (Response (Success "Model deleted successfully") 200, db)
        else (Response (Failure "Model not found or deletion failed") 404, db)
    end.

End Routes.

(** ** The constraints of the schema *)

Module Schema.
Import Database.

(** PRIMARY KEY AUTOINCREMENT on both tables, UNIQUE [username], UNIQUE
    [email] where it is not NULL, UNIQUE [(user_id, model_name)]. *)
Record wf (db : t) : Prop := Wf {
  wf_user_ids : NoDup (u_id <$> users db);
  wf_user_range : ∀ r, r ∈ users db → 1 <= u_id r <= users_seq db;
  wf_usernames : NoDup (u_username <$> users db);
  wf_emails : NoDup (omap u_email (users db));
  wf_model_ids : NoDup (m_id <$> models db);
  wf_model_range : ∀ r, r ∈ models db → 1 <= m_id r <= models_seq db;
  wf_model_keys : NoDup ((fun r => (m_user_id r, m_model_name r)) <$> models db)
}.



End Schema.

(** ** Shapes of strings *)

Module Shape.

Definition is_digit (c : ascii) : Prop := 48 <= PyStr.ord c <= 57.

Definition is_hex_digit (c : ascii) : Prop :=
  48 <= PyStr.ord c <= 57 ∨ 97 <= PyStr.ord c <= 102.

Fixpoint all_chars (P : ascii → Prop) (s : string) : Prop :=
  match s with
  | EmptyString => True
  | String c rest => P c ∧ all_chars P rest
  end.

(** A number written with exactly four digits after the decimal point. *)
Definition four_decimal_places (s : string) : Prop :=
  ∃ whole frac, s = whole +:+ "." +:+ frac ∧
    String.length frac = 4%nat ∧ all_chars is_digit frac.

(** What [hexdigest()] of SHA-256 looks like: 64 lowercase hex digits. *)
Definition is_hexdigest (s : string) : Prop :=
  String.length s = 64%nat ∧ all_chars is_hex_digit s.

End Shape.

(** ** The running server: the two global objects and the calls on them *)

Module Server.

(** The globals [db] and [auth_controller]. *)
Record world := World {
  db : Database.t;
  active_sessions : gmap string AuthController.session
}.

(** The process at start-up. *)
Definition boot : world := World Database.init_database AuthController.init.

(** A call of a method of [Database] or [AuthController]. *)
Inductive call :=
  | CreateUser (now : Z) (username password : string) (email : option string)
  | AuthenticateUser (username password : string)
  | GetUserById (user_id : Z)
  | SaveModel (now : Z) (user_id : Z) (model_name : string)
      (model_data : gmap string pyval)
  | GetUserModels (user_id : Z)
  | GetModelById (model_id user_id : Z)
  | DeleteModel (model_id user_id : Z)
  | CreateSession (rnd : list Z) (user_id : Z) (username : string)
  | GetSession (session_id : string)
  | DeleteSession (session_id : string)
  | Signup (now : Z) (username password : string) (email : option string)
  | Signin (rnd : list Z) (username password : string)
  | Signout (session_id : string)
  | GetCurrentUser (session_id : string)
  | IsAuthenticated (session_id : string).

(** The globals after a call. *)
Definition step (w : world) (c : call) : world :=
  match c with
  | CreateUser now username password email =>
      World (Database.create_user (db w) now username password email).2
            (active_sessions w)
  | SaveModel now user_id model_name model_data =>
      World (Database.save_model (db w) now user_id model_name model_data).2
            (active_sessions w)
  | DeleteModel model_id user_id =>
      World (Database.delete_model (db w) model_id user_id).2 (active_sessions w)
  | CreateSession rnd user_id username =>
      World (db w)
            (AuthController.create_session (active_sessions w) rnd user_id username).2
  | DeleteSession session_id =>
      World (db w) (AuthController.delete_session (active_sessions w) session_id)
  | Signup now username password email =>
      World (AuthController.signup (db w) now username password email).2
            (active_sessions w)
  | Signin rnd username password =>
      World (db w)
            (AuthController.signin (db w) (active_sessions w) rnd username password).2
  | Signout session_id =>
      World (db w) (AuthController.signout (active_sessions w) session_id).2
  | AuthenticateUser _ _ | GetUserById _ | GetUserModels _ | GetModelById _ _
  | GetSession _ | GetCurrentUser _ | IsAuthenticated _ => w
  end.

Definition run (w : world) (cs : list call) : world := foldl step w cs.






(** The call ends the session [session_id] on purpose. *)
Definition ends_session (session_id : string) (c : call) : Prop :=
  c = DeleteSession session_id ∨ c = Signout session_id.

End Server.

(** ** Sample values *)

Module Sample.

(** The floats [1.5], [2.3], [0.1] and [0.9], and [float("inf")]. *)
Definition f1_5 : spec_float := S754_finite false 6755399441055744 (-52).
Definition f2_3 : spec_float := S754_finite false 5179139571476070 (-51).
Definition f0_1 : spec_float := S754_finite false 7205759403792794 (-56).
Definition f0_9 : spec_float := S754_finite false 8106479329266893 (-53).
Definition inf : spec_float := S754_infinity false.

(** A [model_data] dictionary with the five required entries. *)
Definition metrics (theta_0 theta_1 : spec_float) : gmap string pyval :=
  <["theta_0" := PyFloat theta_0]>
  (<["theta_1" := PyFloat theta_1]>
  (<["rmse" := PyFloat f0_1]>
  (<["mae" := PyFloat f0_1]>
  (<["r2_score" := PyFloat f0_9]> ∅)))).

(** Sixteen random bytes. *)
Definition rnd : list Z := [0; 1; 2; 3; 4; 5; 6; 7; 8; 9; 10; 11; 12; 13; 14; 15].

(** The database after [signup("alice", "secret1", "a@x.com")] at time 100. *)
Definition db_alice : Database.t :=
  Eval vm_compute in
    (AuthController.signup Database.init_database 100 "alice" "secret1"
       (Some "a@x.com"%string)).2.


(** The calls that lead from start-up to two users with a model each. *)
Definition two_users_calls : list Server.call :=
  [Server.Signup 100 "alice" "secret1" (Some "a@x.com"%string);
   Server.Signup 101 "bob" "secret2" None;
   Server.SaveModel 200 1 "m1" (metrics f1_5 f2_3);
   Server.SaveModel 201 2 "m1" (metrics f2_3 f1_5)].

Definition db_two_users : Database.t :=
  Eval vm_compute in Server.db (Server.run Server.boot two_users_calls).

(** Alice's row of [models] in [db_two_users]. *)
Definition alice_model : Database.model_row :=
  Database.ModelRow 1 1 "m1" f1_5 f2_3 f0_1 f0_1 f0_9 None None None
    "y = 2.3000x + 1.5000" 200.


(** The sessions once Bob (user 2) has one, and its cookie. *)
Definition bob_sessions : gmap string AuthController.session :=
  (AuthController.create_session AuthController.init rnd 2 "bob").2.


End Sample.

(** ** [routes/auth_routes.py]: the account routes *)

Module AccountRoutes.

(** The [content] of a [JSONResponse] of [/signup], [/signout] and [/me]. *)
Inductive content :=
  | Failure (detail : string)
  | Signup (result : AuthController.signup_response)
  | Signout (result : AuthController.signout_response)
  | Authenticated (user : AuthController.public_user)
  | NotAuthenticated.

Record JSONResponse := Response {
  body : content;
  status_code : Z
}.

Definition signup (db : Database.t) (now : Z)
    (username password : string) (email : option string)
    : outcome JSONResponse * Database.t :=
  match AuthController.signup db now username password email with
  | (Return result, db) => (Return (Response (Signup result) 201), db)
  | (HTTPException code detail, db) => (Return (Response (Failure detail) code), db)
  | (TypeError, db) => (TypeError, db)
  end.

(** The second component of the answer is the key that
    [response.delete_cookie] clears. *)
Definition signout (active_sessions : gmap string AuthController.session)
    (session_id : option string)
    : (JSONResponse * option string) * gmap string AuthController.session :=
  if Routes.no_cookie session_id then
    ((Response (Failure "No active session") 400, None), active_sessions)
  else
    let '(result, active_sessions) :=
      AuthController.signout active_sessions (default "" session_id) in
    ((Response (Signout result) 200, Some "session_id"%string), active_sessions).

Definition get_current_user (db : Database.t)
    (active_sessions : gmap string AuthController.session)
    (session_id : option string) : JSONResponse :=
  if Routes.no_cookie session_id then Response NotAuthenticated 200
  else
    match AuthController.get_current_user db active_sessions (default "" session_id) with
    | Some user =>
        Response (Authenticated
                    (AuthController.PublicUser (Database.ud_id user)
                       (Database.ud_username user) (Database.ud_email user))) 200
    | None => Response NotAuthenticated 200
    end.

End AccountRoutes.

(** ** [test_auth.py]: the script that exercises the routes

    A request of the script is served by its route, on the globals of the
    server, at the clock and with the random bytes of that moment. *)

Module TestAuth.


(** The floats of [test_save_model]: 0.123, 0.098, 0.892, 0.120, 0.095, 0.895. *)
Definition rmse : spec_float := S754_finite false 8863084066665136 (-56).
Definition mae : spec_float := S754_finite false 7061644215716938 (-56).
Definition r2_score : spec_float := S754_finite false 8034421735228965 (-53).
Definition sklearn_rmse : spec_float := S754_finite false 8646911284551352 (-56).
Definition sklearn_mae : spec_float := S754_finite false 6845471433603154 (-56).
Definition sklearn_r2 : spec_float := S754_finite false 8061443332993188 (-53).







End TestAuth.

(** ** More vocabulary *)

Module Order.

(** A list of entries with the newest first. *)
Definition newest_first (entries : list Database.model_dict) : Prop :=
  StronglySorted
    (fun a b => Database.md_created_at b <= Database.md_created_at a) entries.

(** The call bypasses [signin] and opens a session directly. *)
Definition opens_session_directly (c : Server.call) : Prop :=
  match c with
  | Server.CreateSession _ _ _ => True
  | _ => False
  end.

(** Every active session belongs to a user of the table. *)
Definition sessions_resolve (w : Server.world) : Prop :=
  ∀ session_id,
    AuthController.is_authenticated (Server.active_sessions w) session_id = true →
    is_Some (AuthController.get_current_user (Server.db w)
               (Server.active_sessions w) session_id).

(** The id is used up: no row of [models] carries it and the counter of
    the table has passed it. *)
Definition retired (model_id : Z) (db : Database.t) : Prop :=
  model_id <= Database.models_seq db ∧
  ∀ x, x ∈ Database.models db → Database.m_id x ≠ model_id.

End Order.

(** * Properties *)

(** ** Calls that return *)

Lemma returned_inv {A B : Type} (x : outcome A * B) :
  returned x.1 = true → ∃ a b, x = (Return a, b).
Proof. destruct x as [[a| |] b]; simpl; [by exists a, b|done..]. Qed.

(** ** Lists of rows *)

Section rows.
Context {A : Type}.

Lemma filter_keeps_all (P : A → Prop) `{!∀ x, Decision (P x)} (l : list A) :
  (∀ x, x ∈ l → P x) → filter P l = l.
Proof.
  induction l as [|a l IH]; intros Hall; [done|].
  rewrite filter_cons. rewrite decide_True by (apply Hall; left).
  f_equal. apply IH. intros x Hx. apply Hall. by right.
Qed.

Lemma find_none_elem (f : A → bool) (l : list A) :
  (∀ x, x ∈ l → f x = false) → List.find f l = None.
Proof.
  induction l as [|a l IH]; intros Hall; [done|]. simpl.
  rewrite (Hall a) by left. apply IH. intros x Hx. apply Hall. by right.
Qed.

Lemma find_some_elem (f : A → bool) (l : list A) (x : A) :
  List.find f l = Some x → x ∈ l ∧ f x = true.
Proof.
  intros H. apply find_some in H as [Hin Hf]. split; [|done].
  by apply list_elem_of_In.
Qed.

(** The first match is the appended element when nothing before matches. *)
Lemma find_app_last (f : A → bool) (l : list A) (x : A) :
  (∀ y, y ∈ l → f y = false) → f x = true → List.find f (l ++ [x]) = Some x.
Proof.
  induction l as [|a l IH]; intros Hall Hx; simpl.
  - by rewrite Hx.
  - rewrite (Hall a) by left. apply IH; [|done].
    intros y Hy. apply Hall. by right.
Qed.

Lemma find_app_first (f : A → bool) (l l' : list A) (x : A) :
  List.find f l = Some x → List.find f (l ++ l') = Some x.
Proof.
  induction l as [|a l IH]; [done|]. simpl. destruct (f a); [done|]. apply IH.
Qed.
End rows.

Section keys.
Context {A B : Type}.

(** A column without duplicates identifies its row. *)
Lemma unique_column (f : A → B) (l : list A) (x y : A) :
  NoDup (f <$> l) → x ∈ l → y ∈ l → f x = f y → x = y.
Proof.
  induction l as [|a l IH]; intros Hnd Hx Hy Hf; [by apply elem_of_nil in Hx|].
  rewrite fmap_cons in Hnd. apply NoDup_cons in Hnd as [Ha Hnd].
  apply elem_of_cons in Hx as [->|Hx]; apply elem_of_cons in Hy as [->|Hy].
  - done.
  - exfalso. apply Ha. rewrite Hf. by apply list_elem_of_fmap_2.
  - exfalso. apply Ha. rewrite <- Hf. by apply list_elem_of_fmap_2.
  - by apply IH.
Qed.
End keys.

(** ** Row identifiers *)

Lemma foldr_max_bound (ids : list Z) (x : Z) : x ∈ ids → x <= foldr Z.max 0 ids.
Proof.
  induction ids as [|a ids IH]; intros Hx; [by apply elem_of_nil in Hx|].
  simpl. apply elem_of_cons in Hx as [->|Hx]; [lia|].
  specialize (IH Hx). lia.
Qed.

Lemma next_rowid_fresh (ids : list Z) (seq x : Z) :
  x ∈ ids → x < Database.next_rowid ids seq.
Proof.
  intros Hx. apply foldr_max_bound in Hx. unfold Database.next_rowid. lia.
Qed.

Lemma next_rowid_above_seq (ids : list Z) (seq : Z) :
  seq < Database.next_rowid ids seq.
Proof. unfold Database.next_rowid. lia. Qed.

(** ** Looking a model up and deleting it *)

Section models.
Import Database.

Lemma get_model_by_id_none (db : t) (model_id user_id : Z) :
  (∀ r, r ∈ models db → ¬ owned_model model_id user_id r) →
  get_model_by_id db model_id user_id = None.
Proof.
  intros Hno. unfold get_model_by_id.
  rewrite find_none_elem; [done|].
  intros r Hr. apply bool_decide_eq_false. by apply Hno.
Qed.

Lemma delete_model_none (db : t) (model_id user_id : Z) :
  (∀ r, r ∈ models db → ¬ owned_model model_id user_id r) →
  delete_model db model_id user_id = (false, db).
Proof.
  intros Hno. unfold delete_model.
  rewrite filter_keeps_all by done.
  replace (Z.of_nat (length (models db)) - Z.of_nat (length (models db))) with 0 by lia.
  by destruct db.
Qed.


End models.


(** ** Strings *)

Lemma append_cons (c : ascii) (s1 s2 : string) :
  String c s1 +:+ s2 = String c (s1 +:+ s2).
Proof. reflexivity. Qed.

Lemma append_empty (s : string) : "" +:+ s = s.
Proof. reflexivity. Qed.

Lemma length_append (s1 s2 : string) :
  String.length (s1 +:+ s2) = (String.length s1 + String.length s2)%nat.
Proof.
  induction s1 as [|c s1 IH]; [done|].
  rewrite append_cons. simpl. by rewrite IH.
Qed.

Lemma append_assoc (s1 s2 s3 : string) : (s1 +:+ s2) +:+ s3 = s1 +:+ (s2 +:+ s3).
Proof.
  induction s1 as [|c s1 IH]; [done|]. rewrite !append_cons. by rewrite IH.
Qed.

Lemma all_chars_append (P : ascii → Prop) (s1 s2 : string) :
  Shape.all_chars P s1 → Shape.all_chars P s2 → Shape.all_chars P (s1 +:+ s2).
Proof.
  induction s1 as [|c s1 IH]; [done|]. rewrite append_cons. simpl.
  intros [Hc Hs1] Hs2. split; auto.
Qed.


(** ** Hexadecimal digits and the digest *)

Lemma hex_digit_is_hex (n : Z) : 0 <= n < 16 → Shape.is_hex_digit (Sha256.hex_digit n).
Proof.
  intros Hn.
  assert (n = 0 ∨ n = 1 ∨ n = 2 ∨ n = 3 ∨ n = 4 ∨ n = 5 ∨ n = 6 ∨ n = 7 ∨
          n = 8 ∨ n = 9 ∨ n = 10 ∨ n = 11 ∨ n = 12 ∨ n = 13 ∨ n = 14 ∨ n = 15)
    as Hcases by lia.
  unfold Shape.is_hex_digit.
  repeat (destruct Hcases as [->|Hcases]; [vm_compute; intuition discriminate|]).
  subst n. vm_compute. intuition discriminate.
Qed.


Lemma length_hex (n : nat) (x : Z) : String.length (Sha256.hex n x) = n.
Proof.
  revert x. induction n as [|n IH]; intros x; simpl; [done|].
  rewrite length_append, IH. simpl. lia.
Qed.

Lemma hex_all_hex (n : nat) (x : Z) :
  Shape.all_chars Shape.is_hex_digit (Sha256.hex n x).
Proof.
  revert x. induction n as [|n IH]; intros x; simpl; [done|].
  apply all_chars_append; [apply IH|]. simpl. split; [|done].
  apply hex_digit_is_hex. apply Z.mod_pos_bound. lia.
Qed.


Lemma hexdigest_shape (msg : list Z) : Shape.is_hexdigest (Sha256.hexdigest msg).
Proof.
  unfold Shape.is_hexdigest, Sha256.hexdigest. split.
  - by rewrite !length_append, !length_hex.
  - repeat (apply all_chars_append; [apply hex_all_hex|]). apply hex_all_hex.
Qed.


(** ** Creating users *)

Section users.
Import Database.

Lemma insert_user_duplicate_username (db : t) (now : Z)
    (username password_hash : string) (email : option string) :
  username ∈ u_username <$> users db →
  insert_user db now username password_hash email = IntegrityError.
Proof. intros Hdup. unfold insert_user. by rewrite bool_decide_eq_true_2. Qed.

Lemma insert_user_duplicate_email (db : t) (now : Z)
    (username password_hash address : string) :
  Some address ∈ u_email <$> users db →
  insert_user db now username password_hash (Some address) = IntegrityError.
Proof.
  intros Hdup. unfold insert_user. case_bool_decide; [done|].
  by rewrite bool_decide_eq_true_2.
Qed.

Lemma insert_user_fresh (db : t) (now : Z)
    (username password_hash : string) (email : option string) :
  username ∉ u_username <$> users db →
  (email = None ∨ email ∉ u_email <$> users db) →
  insert_user db now username password_hash email =
    let id := next_rowid (u_id <$> users db) (users_seq db) in
    SqlOk (Db (users db ++ [UserRow id username password_hash email now]) id
              (models db) (models_seq db)).
Proof.
  intros Hname Hmail. unfold insert_user.
  rewrite bool_decide_eq_false_2 by done.
  rewrite bool_decide_eq_false_2; [done|].
  intros [[address ->] Hin]. by destruct Hmail.
Qed.

(** An insertion that completes has appended one row with a new id. *)
Lemma insert_user_inv (db db' : t) (now : Z)
    (username password_hash : string) (email : option string) :
  insert_user db now username password_hash email = SqlOk db' →
  (username ∉ u_username <$> users db) ∧
  (email = None ∨ email ∉ u_email <$> users db) ∧
  db' = Db (users db ++ [UserRow (next_rowid (u_id <$> users db) (users_seq db))
                           username password_hash email now])
           (next_rowid (u_id <$> users db) (users_seq db))
           (models db) (models_seq db).
Proof.
  unfold insert_user. intros H.
  case_bool_decide as Hname; [done|]. case_bool_decide as Hmail; [done|].
  injection H as <-. split_and!; [done| |done].
  destruct email as [address|]; [right|by left].
  intros Hin. apply Hmail. split; [by eexists|done].
Qed.

(** After a row for [username] is appended, authentication with the
    password it was created with finds that row. *)
Lemma authenticate_new_user (db : t) (id now : Z)
    (username password : string) (email : option string) :
  username ∉ u_username <$> users db →
  authenticate_user
    (Db (users db ++ [UserRow id username (hash_password password) email now]) id
        (models db) (models_seq db)) username password = Some id.
Proof.
  intros Hname. unfold authenticate_user. simpl.
  rewrite find_app_last.
  - simpl. unfold verify_password. by rewrite bool_decide_eq_true_2.
  - intros r Hr. apply bool_decide_eq_false. intros <-.
    apply Hname. by apply list_elem_of_fmap_2.
  - simpl. by apply bool_decide_eq_true.
Qed.

Lemma get_new_user (db : t) (now : Z)
    (username password_hash : string) (email : option string) :
  let id := next_rowid (u_id <$> users db) (users_seq db) in
  get_user_by_id
    (Db (users db ++ [UserRow id username password_hash email now]) id
        (models db) (models_seq db)) id
  = Some (UserDict id username email now).
Proof.
  intros id. unfold get_user_by_id. simpl.
  rewrite find_app_last; [done| |].
  - intros r Hr. apply bool_decide_eq_false. intros Heq.
    assert (u_id r < id) by (apply next_rowid_fresh; by apply list_elem_of_fmap_2).
    lia.
  - simpl. by apply bool_decide_eq_true.
Qed.
End users.






(** ** Formatting with four decimals *)

Lemma decimal_digit_is_digit (d : Z) :
  0 <= d < 10 → Shape.is_digit (PyStr.chr (48 + d)).
Proof.
  intros Hd.
  assert (d = 0 ∨ d = 1 ∨ d = 2 ∨ d = 3 ∨ d = 4 ∨ d = 5 ∨ d = 6 ∨ d = 7 ∨
          d = 8 ∨ d = 9) as Hcases by lia.
  unfold Shape.is_digit.
  repeat (destruct Hcases as [->|Hcases]; [vm_compute; intuition discriminate|]).
  subst d. vm_compute. intuition discriminate.
Qed.

Lemma length_decimal (n : nat) (x : Z) : String.length (PyFloat.decimal n x) = n.
Proof.
  revert x. induction n as [|n IH]; intros x; simpl; [done|].
  rewrite length_append, IH. simpl. lia.
Qed.

Lemma decimal_all_digits (n : nat) (x : Z) :
  Shape.all_chars Shape.is_digit (PyFloat.decimal n x).
Proof.
  revert x. induction n as [|n IH]; intros x; simpl; [done|].
  apply all_chars_append; [apply IH|]. simpl. split; [|done].
  apply decimal_digit_is_digit. apply Z.mod_pos_bound. lia.
Qed.

Lemma fixed4_four_decimal_places (neg : bool) (q : Z) :
  Shape.four_decimal_places (PyFloat.fixed4 neg q).
Proof.
  unfold PyFloat.fixed4.
  exists ((if neg then "-" else "") +:+ pretty (Z.to_N (q / 10000))),
         (PyFloat.decimal 4 (q mod 10000)).
  split_and!.
  - by rewrite !append_assoc.
  - apply length_decimal.
  - apply decimal_all_digits.
Qed.

(** Every finite float is written with exactly four decimals. *)
Lemma format_4f_finite (x : spec_float) :
  PyFloat.is_finite x = true → Shape.four_decimal_places (PyFloat.format_4f x).
Proof.
  destruct x; simpl; try discriminate; intros _; apply fixed4_four_decimal_places.
Qed.

(** An infinity is written without any decimal. *)
Lemma format_4f_inf : ¬ Shape.four_decimal_places (PyFloat.format_4f Sample.inf).
Proof.
  intros (whole & frac & Heq & _ & _). simpl in Heq.
  destruct whole as [|c1 [|c2 [|c3 [|c4 whole]]]]; rewrite ?append_cons, ?append_empty in Heq;
    discriminate.
Qed.

(** ** Ordering rows by creation time *)

Lemma insert_newest_first_perm (r : Database.model_row) (rows : list Database.model_row) :
  Database.insert_newest_first r rows ≡ₚ r :: rows.
Proof.
  induction rows as [|r' rows IH]; simpl; [done|].
  destruct (Database.m_created_at r' <=? Database.m_created_at r); [done|].
  rewrite IH. apply Permutation_swap.
Qed.

Lemma order_by_created_at_desc_perm (rows : list Database.model_row) :
  Database.order_by_created_at_desc rows ≡ₚ rows.
Proof.
  induction rows as [|r rows IH]; simpl; [done|].
  rewrite insert_newest_first_perm. by rewrite IH.
Qed.

Section filters.
Context {A B : Type}.

Lemma filter_fmap_comm (f : A → B) (P : B → Prop) `{!∀ y, Decision (P y)}
    (l : list A) :
  filter P (f <$> l) = f <$> filter (fun x => P (f x)) l.
Proof.
  induction l as [|a l IH]; [done|].
  rewrite fmap_cons, !filter_cons, IH. by case_decide.
Qed.

Lemma filter_drops_all (P : A → Prop) `{!∀ x, Decision (P x)} (l : list A) :
  (∀ x, x ∈ l → ¬ P x) → filter P l = [].
Proof.
  induction l as [|a l IH]; intros Hall; [done|].
  rewrite filter_cons, decide_False by (apply Hall; left).
  apply IH. intros x Hx. apply Hall. by right.
Qed.
End filters.

(** The entries of [get_user_models] are the rows of the user. *)
Lemma elem_of_get_user_models (db : Database.t) (user_id : Z) (e : Database.model_dict) :
  e ∈ Database.get_user_models db user_id ↔
  ∃ r, r ∈ Database.models db ∧ Database.m_user_id r = user_id ∧
       e = Database.model_dict_of_row r.
Proof.
  unfold Database.get_user_models. rewrite list_elem_of_fmap.
  split.
  - intros (r & -> & Hr). exists r.
    rewrite order_by_created_at_desc_perm in Hr.
    apply list_elem_of_filter in Hr as [Hu Hr]. done.
  - intros (r & Hr & Hu & ->). exists r. split; [done|].
    rewrite order_by_created_at_desc_perm. by apply list_elem_of_filter.
Qed.

(** ** Saving a model *)

Section saving.
Import Database.


(** What a call of [save_model] that returns [True] has done: the rows
    with the same user and name are gone, and one row is appended, under
    a new id, with the values bound and the equation computed. *)
Lemma save_model_inv (db db' : t) (now user_id : Z) (model_name : string)
    (model_data : gmap string pyval) :
  save_model db now user_id model_name model_data = (true, db') →
  ∃ row theta_0 theta_1,
    db' = Db (users db) (users_seq db)
             (filter (fun r => ¬ same_model_key user_id model_name r) (models db)
                ++ [row]) (m_id row) ∧
    m_id row = next_rowid (m_id <$> models db) (models_seq db) ∧
    m_user_id row = user_id ∧
    m_model_name row = model_name ∧
    get_or_zero model_data "theta_0" = PyFloat theta_0 ∧
    get_or_zero model_data "theta_1" = PyFloat theta_1 ∧
    Some (m_theta_0 row) = real_affinity <$> bind_real (get_or_zero model_data "theta_0") ∧
    Some (m_theta_1 row) = real_affinity <$> bind_real (get_or_zero model_data "theta_1") ∧
    Some (m_rmse row) = real_affinity <$> bind_real (get_or_zero model_data "rmse") ∧
    Some (m_mae row) = real_affinity <$> bind_real (get_or_zero model_data "mae") ∧
    Some (m_r2_score row) = real_affinity <$> bind_real (get_or_zero model_data "r2_score") ∧
    m_sklearn_rmse row = real_affinity <$> bind_real (get_or_none model_data "sklearn_rmse") ∧
    m_sklearn_mae row = real_affinity <$> bind_real (get_or_none model_data "sklearn_mae") ∧
    m_sklearn_r2 row = real_affinity <$> bind_real (get_or_none model_data "sklearn_r2") ∧
    m_equation row =
      "y = " +:+ PyFloat.format_4f theta_1 +:+ "x + " +:+ PyFloat.format_4f theta_0 ∧
    m_created_at row = now.
Proof.
  unfold save_model, replace_model. intros Hsave.
  destruct (get_or_zero model_data "theta_1") as [|theta_1] eqn:H1; [done|].
  destruct (get_or_zero model_data "theta_0") as [|theta_0] eqn:H0; [done|].
  cbn [format_value] in Hsave.
  destruct (bind_real (PyFloat theta_0)) as [t0|] eqn:B0; [|done].
  destruct (bind_real (PyFloat theta_1)) as [t1|] eqn:B1; [|done].
  destruct (bind_real (get_or_zero model_data "rmse")) as [e1|] eqn:B2; [|done].
  destruct (bind_real (get_or_zero model_data "mae")) as [e2|] eqn:B3; [|done].
  destruct (bind_real (get_or_zero model_data "r2_score")) as [e3|] eqn:B4; [|done].
  injection Hsave as <-.
  eexists (ModelRow _ _ _ _ _ _ _ _ _ _ _ _ _), theta_0, theta_1.
  cbn [m_id m_user_id m_model_name m_theta_0 m_theta_1 m_rmse m_mae m_r2_score
       m_sklearn_rmse m_sklearn_mae m_sklearn_r2 m_equation m_created_at].
  split_and!; reflexivity.
Qed.


(** After a save, the user's entries of that name are the saved row alone. *)
Lemma saved_entry_alone (rows : list model_row) (row : model_row) :
  filter (fun d => md_model_name d = m_model_name row)
    (model_dict_of_row <$>
       order_by_created_at_desc
         (filter (fun r => m_user_id r = m_user_id row)
            (filter (fun r => ¬ same_model_key (m_user_id row) (m_model_name row) r) rows
               ++ [row])))
  = [model_dict_of_row row].
Proof.
  rewrite filter_fmap_comm.
  change [model_dict_of_row row] with (model_dict_of_row <$> [row]). f_equal.
  apply Permutation_singleton_r.
  rewrite order_by_created_at_desc_perm.
  rewrite !filter_app.
  rewrite (filter_singleton_True _ row []) by done.
  rewrite (filter_singleton_True _ row []) by done.
  rewrite (filter_drops_all _ (filter _ (filter _ rows))); [done|].
  intros x Hx Hname. simpl in Hname.
  apply list_elem_of_filter in Hx as [Huser Hx].
  apply list_elem_of_filter in Hx as [Hkey Hx].
  by apply Hkey.
Qed.
End saving.

(** The stored value differs from the value given at most by the sign of a
    zero. *)
Lemma real_affinity_same (x : spec_float) :
  (∀ s, x ≠ S754_zero s) → Database.real_affinity x = x.
Proof. destruct x as [s| | |]; intros H; [by destruct (H s)|done..]. Qed.

Lemma real_affinity_zero (s : bool) :
  Database.real_affinity (S754_zero s) = S754_zero false.
Proof. done. Qed.

(** ** The schema constraints hold in every state the server reaches *)

Section invariant.
Import Database.

Lemma wf_init_database : Schema.wf init_database.
Proof.
  split; simpl; try apply NoDup_nil_2; intros r Hr; by apply elem_of_nil in Hr.
Qed.

Lemma next_rowid_positive (ids : list Z) (seq : Z) : 1 <= next_rowid ids seq.
Proof.
  unfold next_rowid.
  assert (0 <= foldr Z.max 0 ids) by (induction ids; simpl; lia). lia.
Qed.

Lemma NoDup_snoc {A : Type} (l : list A) (x : A) :
  NoDup l → x ∉ l → NoDup (l ++ [x]).
Proof.
  intros Hl Hx. apply NoDup_app. split_and!; [done| |apply NoDup_singleton].
  intros y Hy Hin. apply list_elem_of_singleton in Hin. by subst.
Qed.

Lemma NoDup_fmap_filter {A B : Type} (f : A → B) (P : A → Prop)
    `{!∀ x, Decision (P x)} (l : list A) :
  NoDup (f <$> l) → NoDup (f <$> filter P l).
Proof.
  intros Hnd. eapply sublist_NoDup; [exact Hnd|].
  apply fmap_sublist, sublist_filter.
Qed.

Lemma wf_create_user (db : t) (now : Z) (username password : string)
    (email : option string) :
  Schema.wf db → Schema.wf (create_user db now username password email).2.
Proof.
  intros Hwf. unfold create_user.
  destruct (insert_user db now username (hash_password password) email)
    as [db'|] eqn:Hins; [|done].
  apply insert_user_inv in Hins as (Hname & Hmail & ->).
  destruct Hwf as [Hids Hrange Hnames Hmails Hmids Hmrange Hkeys].
  split; simpl; try done.
  - rewrite fmap_app. apply NoDup_snoc; [done|]. simpl.
    intros Hin. apply next_rowid_fresh with (seq := users_seq db) in Hin. lia.
  - intros r Hr. apply elem_of_app in Hr as [Hr|Hr].
    + specialize (Hrange r Hr).
      pose proof (next_rowid_above_seq (u_id <$> users db) (users_seq db)). lia.
    + apply list_elem_of_singleton in Hr as ->. simpl.
      pose proof (next_rowid_positive (u_id <$> users db) (users_seq db)). lia.
  - rewrite fmap_app. by apply NoDup_snoc.
  - rewrite omap_app. simpl. destruct email as [address|]; simpl.
    + apply NoDup_snoc; [done|]. intros Hin.
      apply list_elem_of_omap in Hin as (r & Hr & Hmail').
      destruct Hmail as [?|Hmail]; [done|]. apply Hmail.
      rewrite <- Hmail'. by apply list_elem_of_fmap_2.
    + by rewrite app_nil_r.
Qed.

Lemma wf_save_model (db : t) (now user_id : Z) (model_name : string)
    (model_data : gmap string pyval) :
  Schema.wf db → Schema.wf (save_model db now user_id model_name model_data).2.
Proof.
  intros Hwf.
  destruct (save_model db now user_id model_name model_data) as [[] db'] eqn:Hsave;
    simpl.
  - apply save_model_inv in Hsave
      as (row & t0 & t1 & -> & Hid & Huser & Hname & _).
    destruct Hwf as [Hids Hrange Hnames Hmails Hmids Hmrange Hkeys].
    split; simpl; try done.
    + rewrite fmap_app. apply NoDup_snoc; [by apply NoDup_fmap_filter|]. simpl.
      intros Hin. apply list_elem_of_fmap in Hin as (x & Hx & Hin).
      apply list_elem_of_filter in Hin as [_ Hin].
      assert (m_id x < m_id row).
      { rewrite Hid. apply next_rowid_fresh. by apply list_elem_of_fmap_2. }
      lia.
    + intros r Hr. apply elem_of_app in Hr as [Hr|Hr].
      * apply list_elem_of_filter in Hr as [_ Hr]. specialize (Hmrange r Hr).
        pose proof (next_rowid_above_seq (m_id <$> models db) (models_seq db)). lia.
      * apply list_elem_of_singleton in Hr as ->.
        pose proof (next_rowid_positive (m_id <$> models db) (models_seq db)). lia.
    + rewrite fmap_app. apply NoDup_snoc; [by apply NoDup_fmap_filter|]. simpl.
      intros Hin. apply list_elem_of_fmap in Hin as (x & Hx & Hin).
      apply list_elem_of_filter in Hin as [Hkey _]. apply Hkey.
      injection Hx as Hx1 Hx2. split; congruence.
  - unfold save_model in Hsave.
    repeat case_match; simplify_eq; done.
Qed.

Lemma wf_delete_model (db : t) (model_id user_id : Z) :
  Schema.wf db → Schema.wf (delete_model db model_id user_id).2.
Proof.
  intros [Hids Hrange Hnames Hmails Hmids Hmrange Hkeys].
  unfold delete_model. split; simpl; try done.
  - by apply NoDup_fmap_filter.
  - intros r Hr. apply list_elem_of_filter in Hr as [_ Hr]. by apply Hmrange.
  - by apply NoDup_fmap_filter.
Qed.

Lemma wf_signup (db : t) (now : Z) (username password : string)
    (email : option string) :
  Schema.wf db → Schema.wf (AuthController.signup db now username password email).2.
Proof.
  intros Hwf. unfold AuthController.signup.
  destruct (PyStr.len username <? 3); [done|].
  destruct (PyStr.len password <? 6); [done|].
  pose proof (wf_create_user db now username password email Hwf) as Hwf'.
  destruct (create_user db now username password email) as [success db'].
  simpl in Hwf'. destruct success; simpl; [|done].
  by repeat case_match.
Qed.

Lemma wf_step (w : Server.world) (c : Server.call) :
  Schema.wf (Server.db w) → Schema.wf (Server.db (Server.step w c)).
Proof.
  intros Hwf. destruct c; simpl; try done.
  - by apply wf_create_user.
  - by apply wf_save_model.
  - by apply wf_delete_model.
  - by apply wf_signup.
Qed.

Lemma wf_run (w : Server.world) (cs : list Server.call) :
  Schema.wf (Server.db w) → Schema.wf (Server.db (Server.run w cs)).
Proof.
  revert w. induction cs as [|c cs IH]; intros w Hwf; [done|].
  simpl. apply IH. by apply wf_step.
Qed.

(** From start-up on, the constraints always hold. *)
Lemma wf_reachable (cs : list Server.call) :
  Schema.wf (Server.db (Server.run Server.boot cs)).
Proof. apply wf_run, wf_init_database. Qed.
End invariant.

(** The sample database with two users is a state the server reaches. *)
Lemma wf_db_two_users : Schema.wf Sample.db_two_users.
Proof.
  assert (Sample.db_two_users
          = Server.db (Server.run Server.boot Sample.two_users_calls)) as ->
    by (vm_compute; reflexivity).
  apply wf_reachable.
Qed.




(** C7, as stated, fails: with an infinite coefficient the call succeeds
    and the stored equation is ["y = infx + 1.5000"], in which the slope is
    not written with four decimals. *)
Lemma saved_equation_inf :
  ¬ (∀ (db db' : Database.t) (now user_id : Z) (model_name : string)
       (model_data : gmap string pyval),
       Database.save_model db now user_id model_name model_data = (true, db') →
       ∃ row theta_0 theta_1,
         last (Database.models db') = Some row ∧
         Database.get_or_zero model_data "theta_0" = PyFloat theta_0 ∧
         Database.get_or_zero model_data "theta_1" = PyFloat theta_1 ∧
         Database.m_equation row =
           "y = " +:+ PyFloat.format_4f theta_1 +:+ "x + " +:+ PyFloat.format_4f theta_0 ∧
         Shape.four_decimal_places (PyFloat.format_4f theta_1) ∧
         Shape.four_decimal_places (PyFloat.format_4f theta_0)).
Proof.
  intros Hclaim.
  destruct (Hclaim Sample.db_alice
              (Database.save_model Sample.db_alice 200 1 "m1"
                 (Sample.metrics Sample.f1_5 Sample.inf)).2
              200 1 "m1"%string (Sample.metrics Sample.f1_5 Sample.inf))
    as (row & theta_0 & theta_1 & Hrow & _ & H1 & Heq & Hfour & _).
  - vm_compute. reflexivity.
  - vm_compute in H1. injection H1 as <-.
    vm_compute in Hrow. injection Hrow as <-.
    by apply format_4f_inf.
Qed.

(** C7, as amended. Every call of [save_model] that returns [True] has
    appended a row for that user and name whose equation is ["y = "], the
    slope [theta_1] formatted with [.4f], ["x + "] and the intercept
    [theta_0] formatted with [.4f] (each is the value of its key in
    [model_data], or 0.0 without the key); a finite coefficient is written
    with exactly four decimals; and with [theta_0 = 1.5] and [theta_1 = 2.3]
    the equation stored is ["y = 2.3000x + 1.5000"]. *)
Theorem saved_equation
    (db db' : Database.t) (now user_id : Z) (model_name : string)
    (model_data : gmap string pyval) :
  Database.save_model db now user_id model_name model_data = (true, db') →
  ∃ row theta_0 theta_1,
    last (Database.models db') = Some row ∧
    Database.m_user_id row = user_id ∧
    Database.m_model_name row = model_name ∧
    Database.get_or_zero model_data "theta_0" = PyFloat theta_0 ∧
    Database.get_or_zero model_data "theta_1" = PyFloat theta_1 ∧
    Database.m_equation row =
      "y = " +:+ PyFloat.format_4f theta_1 +:+ "x + " +:+ PyFloat.format_4f theta_0 ∧
    (PyFloat.is_finite theta_1 = true →
       Shape.four_decimal_places (PyFloat.format_4f theta_1)) ∧
    (PyFloat.is_finite theta_0 = true →
       Shape.four_decimal_places (PyFloat.format_4f theta_0)) ∧
    (theta_0 = Sample.f1_5 → theta_1 = Sample.f2_3 →
       Database.m_equation row = "y = 2.3000x + 1.5000").
Proof.
  intros Hsave.
  apply save_model_inv in Hsave
    as (row & theta_0 & theta_1 & -> & Hid & Huser & Hname & H0 & H1 & _ & _
        & _ & _ & _ & _ & _ & _ & Heq & _).
  exists row, theta_0, theta_1.
  split_and!; try done.
  - cbn [Database.models]. apply last_snoc.
  - apply format_4f_finite.
  - apply format_4f_finite.
  - intros -> ->. rewrite Heq. vm_compute. reflexivity.
Qed.

(** User 1 saves ["m1"] with [theta_0 = 1.5] and [theta_1 = 2.3]. *)
Lemma saved_equation_witness :
  ∃ row,
    last (Database.models
            (Database.save_model Sample.db_alice 200 1 "m1"
               (Sample.metrics Sample.f1_5 Sample.f2_3)).2) = Some row ∧
    Database.m_equation row = "y = 2.3000x + 1.5000" ∧
    Shape.four_decimal_places "2.3000" ∧ Shape.four_decimal_places "1.5000".
Proof.
  destruct (saved_equation Sample.db_alice
              (Database.save_model Sample.db_alice 200 1 "m1"
                 (Sample.metrics Sample.f1_5 Sample.f2_3)).2
              200 1 "m1"%string (Sample.metrics Sample.f1_5 Sample.f2_3))
    as (row & theta_0 & theta_1 & Hrow & _ & _ & H0 & H1 & _ & F1 & F0 & Heq).
  - vm_compute. reflexivity.
  - vm_compute in H0, H1. injection H0 as <-. injection H1 as <-.
    exists row. split_and!.
    + exact Hrow.
    + apply Heq; reflexivity.
    + apply (F1 eq_refl).
    + apply (F0 eq_refl).
Defined.

(** C9. Saving again under a name that [get_user_models] lists gives the
    model a new id: afterwards the user has one entry of that name, its id
    is larger than the one listed before, and [get_model_by_id] and
    [delete_model] with the id listed before return [None] and [False], for
    every caller, and delete nothing. *)
Theorem resave_changes_id
    (db db' : Database.t) (now user_id : Z) (entry : Database.model_dict)
    (model_data : gmap string pyval) :
  Schema.wf db →
  entry ∈ Database.get_user_models db user_id →
  Database.save_model db now user_id (Database.md_model_name entry) model_data
    = (true, db') →
  (∃ entry',
     filter (fun d => Database.md_model_name d = Database.md_model_name entry)
       (Database.get_user_models db' user_id) = [entry'] ∧
     Database.md_id entry < Database.md_id entry') ∧
  ∀ caller,
    Database.get_model_by_id db' (Database.md_id entry) caller = None ∧
    Database.delete_model db' (Database.md_id entry) caller = (false, db').
Proof.
  intros Hwf Hentry Hsave.
  apply elem_of_get_user_models in Hentry as (old & Hold & Huser & ->).
  simpl in Hsave |- *.
  apply save_model_inv in Hsave
    as (row & theta_0 & theta_1 & -> & Hid & Hrowuser & Hname & _).
  assert (Database.m_id old < Database.m_id row) as Hlt.
  { rewrite Hid. apply next_rowid_fresh. by apply list_elem_of_fmap_2. }
  assert (∀ caller x,
            x ∈ filter (fun r => ¬ Database.same_model_key user_id
                                     (Database.m_model_name old) r)
                  (Database.models db) ++ [row] →
            ¬ Database.owned_model (Database.m_id old) caller x) as Hgone.
  { intros caller x Hx [Hxid _].
    apply elem_of_app in Hx as [Hx|Hx].
    - apply list_elem_of_filter in Hx as [Hkey Hx].
      assert (x = old) as ->
        by (eapply unique_column; [apply (Schema.wf_model_ids db Hwf)|done..]).
      by apply Hkey.
    - apply list_elem_of_singleton in Hx as ->. lia. }
  split.
  - exists (Database.model_dict_of_row row). split; [|done].
    unfold Database.get_user_models. cbn [Database.models].
    rewrite <- Hname, <- Hrowuser. apply saved_entry_alone.
  - intros caller. split.
    + apply get_model_by_id_none. apply Hgone.
    + apply delete_model_none. apply Hgone.
Qed.

(** Alice saves her model ["m1"], listed under id 1, once more. *)
Lemma resave_changes_id_witness :
  let db' := (Database.save_model Sample.db_two_users 300 1 "m1"
                (Sample.metrics Sample.f2_3 Sample.f1_5)).2 in
  Database.get_model_by_id db' 1 1 = None ∧
  Database.delete_model db' 1 1 = (false, db').
Proof.
  intros db'.
  destruct (resave_changes_id Sample.db_two_users db' 300 1
              (Database.model_dict_of_row Sample.alice_model)
              (Sample.metrics Sample.f2_3 Sample.f1_5)) as [_ Hgone].
  - exact wf_db_two_users.
  - vm_compute. left.
  - vm_compute. reflexivity.
  - exact (Hgone 1).
Defined.

(** ** Sessions *)

Section sessions.
Import AuthController.

Lemma is_authenticated_true (active_sessions : gmap string session) (s : string) :
  is_authenticated active_sessions s = true ↔ s ∈ dom active_sessions.
Proof. unfold is_authenticated. apply bool_decide_eq_true. Qed.

Lemma is_authenticated_false (active_sessions : gmap string session) (s : string) :
  is_authenticated active_sessions s = false ↔ active_sessions !! s = None.
Proof.
  unfold is_authenticated. rewrite bool_decide_eq_false. apply not_elem_of_dom.
Qed.

Lemma delete_session_lookup (active_sessions : gmap string session) (s s' : string) :
  delete_session active_sessions s !! s' =
    if decide (s = s') then None else active_sessions !! s'.
Proof.
  unfold delete_session. case_bool_decide as Hin.
  - apply lookup_delete.
  - case_decide; [|done]. subst. by apply not_elem_of_dom.
Qed.

Lemma signout_lookup (active_sessions : gmap string session) (s s' : string) :
  (signout active_sessions s).2 !! s' =
    if decide (s = s') then None else active_sessions !! s'.
Proof.
  unfold signout. case_bool_decide as Hin; simpl.
  - apply delete_session_lookup.
  - case_decide; [|done]. subst. by apply not_elem_of_dom.
Qed.

Lemma signin_lookup (db : Database.t) (active_sessions : gmap string session)
    (rnd : list Z) (username password s : string) :
  is_Some (active_sessions !! s) →
  is_Some ((signin db active_sessions rnd username password).2 !! s).
Proof.
  intros Hs. unfold signin.
  destruct (is_falsy _); [done|].
  destruct (Database.get_user_by_id _ _); [|done]. simpl.
  rewrite lookup_insert. by case_decide.
Qed.

(** A call that does not end the session keeps it. *)
Lemma step_keeps_session (w : Server.world) (c : Server.call) (s : string) :
  ¬ Server.ends_session s c →
  is_Some (Server.active_sessions w !! s) →
  is_Some (Server.active_sessions (Server.step w c) !! s).
Proof.
  intros Hends Hs. destruct c; simpl; try done.
  - rewrite lookup_insert. by case_decide.
  - rewrite delete_session_lookup.
    case_decide; [|done]. subst. destruct Hends. by left.
  - by apply signin_lookup.
  - rewrite signout_lookup.
    case_decide; [|done]. subst. destruct Hends. by right.
Qed.

Lemma run_keeps_session (w : Server.world) (cs : list Server.call) (s : string) :
  Forall (fun c => ¬ Server.ends_session s c) cs →
  is_Some (Server.active_sessions w !! s) →
  is_Some (Server.active_sessions (Server.run w cs) !! s).
Proof.
  revert w. induction cs as [|c cs IH]; intros w Hcs Hs; [done|].
  apply Forall_cons in Hcs as [Hc Hcs]. simpl.
  apply IH; [done|]. by apply step_keeps_session.
Qed.
End sessions.



(** C8. A session is removed by [delete_session] or [signout] of its
    identifier only: after [create_session] returns [s], and after the
    signin route has set the cookie with its [max_age] of 7 days, every
    sequence of calls in which no call is [delete_session(s)] or
    [signout(s)] leaves [is_authenticated(s)] true, whatever the clock reads
    at those calls. *)
Theorem session_never_expires
    (db : Database.t) (active_sessions : gmap string AuthController.session)
    (rnd : list Z) :
  (∀ user_id username cs,
     let created := AuthController.create_session active_sessions rnd user_id username in
     Forall (fun c => ¬ Server.ends_session created.1 c) cs →
     AuthController.is_authenticated
       (Server.active_sessions (Server.run (Server.World db created.2) cs))
       created.1 = true) ∧
  (∀ username password response cookie active_sessions' cs,
     Routes.signin db active_sessions rnd username password
       = (Return (response, Some cookie), active_sessions') →
     Forall (fun c => ¬ Server.ends_session (Routes.value cookie) c) cs →
     Routes.max_age cookie = 604800 ∧
     AuthController.is_authenticated
       (Server.active_sessions (Server.run (Server.World db active_sessions') cs))
       (Routes.value cookie) = true).
Proof.
  split.
  - intros user_id username cs created Hcs.
    apply is_authenticated_true, elem_of_dom.
    apply run_keeps_session; [done|]. simpl.
    unfold created, AuthController.create_session. simpl.
    rewrite lookup_insert_eq. by eexists.
  - intros username password response cookie sessions' cs Hsignin Hcs.
    unfold Routes.signin in Hsignin.
    destruct (AuthController.signin db active_sessions rnd username password)
      as [[result| |] after] eqn:Hin; [|done..].
    injection Hsignin as <- <- <-. simpl in Hcs |- *. split; [done|].
    apply is_authenticated_true, elem_of_dom.
    apply run_keeps_session; [done|]. simpl.
    unfold AuthController.signin in Hin.
    destruct (AuthController.is_falsy _); [done|].
    destruct (Database.get_user_by_id _ _); [|done].
    simpl in Hin. injection Hin as <- <-. simpl.
    rewrite lookup_insert_eq. by eexists.
Qed.

(** A session for Alice, and Alice's signin through the route; then calls
    stamped eight days later: another signin, a saved model, the end of some
    other session. *)
Lemma session_never_expires_witness :
  let created := AuthController.create_session AuthController.init Sample.rnd 1 "alice" in
  let later :=
    [Server.Signin [7; 7; 7; 7; 7; 7; 7; 7; 7; 7; 7; 7; 7; 7; 7; 7] "alice" "secret1";
     Server.SaveModel 691300 1 "m1" (Sample.metrics Sample.f1_5 Sample.f2_3);
     Server.Signout "some-other-session";
     Server.IsAuthenticated created.1] in
  AuthController.is_authenticated
    (Server.active_sessions
       (Server.run (Server.World Sample.db_alice created.2) later))
    created.1 = true ∧
  ∃ response cookie after,
    Routes.signin Sample.db_alice AuthController.init Sample.rnd "alice" "secret1"
      = (Return (response, Some cookie), after) ∧
    Routes.max_age cookie = 604800 ∧
    AuthController.is_authenticated
      (Server.active_sessions (Server.run (Server.World Sample.db_alice after) later))
      (Routes.value cookie) = true.
Proof.
  intros created later.
  destruct (session_never_expires Sample.db_alice AuthController.init Sample.rnd)
    as [Hcreated Hroute].
  split.
  - apply Hcreated.
    repeat (apply Forall_cons; split;
            [intros [Hc|Hc]; vm_compute in Hc; discriminate|]).
    apply Forall_nil_2.
  - destruct (returned_inv (Routes.signin Sample.db_alice AuthController.init
                              Sample.rnd "alice" "secret1"))
      as ([response cookie] & after & Hsignin); [vm_compute; reflexivity|].
    assert (cookie = Some (Routes.Cookie "session_id"
                             "00010203-0405-4607-8809-0a0b0c0d0e0f" true 604800))
      as ->.
    { assert (match (Routes.signin Sample.db_alice AuthController.init Sample.rnd
                       "alice" "secret1").1 with
              | Return (_, c) => c
              | _ => None
              end = cookie) as <- by (by rewrite Hsignin).
      vm_compute. reflexivity. }
    eexists response, _, after. split; [exact Hsignin|].
    apply (Hroute "alice"%string "secret1"%string response _ after later Hsignin).
    repeat (apply Forall_cons; split; [intros [Hc|Hc]; discriminate|]).
    apply Forall_nil_2.
Defined.

(** ** UUIDs and their text *)







(** ** Signing in *)

Section signin.
Import AuthController.





End signin.




(** ** Two databases that differ in password hashes only *)

Section hashes.
Import Database.





End hashes.




(** ** The library routines on known values *)

(** [hashlib.sha256(b"abc").hexdigest()], the test vector of FIPS 180-4. *)
Example sha256_abc :
  Sha256.hexdigest (PyStr.encode "abc") =
    "ba7816bf8f01cfea414140de5dae2223b00361a396177a9cb410ff61f20015ad".
Proof. vm_compute. reflexivity. Qed.

(** The empty message, which is one block of padding. *)
Example sha256_empty :
  Sha256.hexdigest [] =
    "e3b0c44298fc1c149afbf4c8996fb92427ae41e4649b934ca495991b7852b855".
Proof. vm_compute. reflexivity. Qed.

(** [f"{0.03125:.4f}"] and [f"{0.09375:.4f}"]: ties go to the even digit. *)
Example format_4f_ties :
  PyFloat.format_4f (S754_finite false 1 (-5)) = "0.0312" ∧
  PyFloat.format_4f (S754_finite false 3 (-5)) = "0.0938".
Proof. vm_compute. split; reflexivity. Qed.

(** [f"{-1e-05:.4f}"] keeps the sign of a value that rounds to zero. *)
Example format_4f_negative_zero :
  PyFloat.format_4f (S754_finite true 5902958103587057 (-69)) = "-0.0000".
Proof. vm_compute. reflexivity. Qed.

(** [str(uuid.UUID(bytes=bytes(range(16)), version=4))] *)
Example uuid4_of_range :
  UUID.str (UUID.uuid4 Sample.rnd) = "00010203-0405-4607-8809-0a0b0c0d0e0f".
Proof. vm_compute. reflexivity. Qed.

(** * Further properties of the code *)

(** ** More on lists of rows *)

Section more_rows.
Context {A : Type}.

Lemma find_app_none (f : A → bool) (l l' : list A) :
  List.find f l = None → List.find f (l ++ l') = List.find f l'.
Proof.
  induction l as [|a l IH]; [done|]. simpl. destruct (f a); [done|]. apply IH.
Qed.

(** The only row that passes the test is the one found. *)
Lemma find_unique (f : A → bool) (l : list A) (r : A) :
  r ∈ l → f r = true → (∀ x, x ∈ l → f x = true → x = r) →
  List.find f l = Some r.
Proof.
  induction l as [|a l IH]; intros Hr Hf Huniq; [by apply elem_of_nil in Hr|].
  simpl. destruct (f a) eqn:Hfa.
  - f_equal. apply Huniq; [left|done].
  - apply elem_of_cons in Hr as [->|Hr]; [congruence|].
    apply IH; [done..|]. intros x Hx. apply Huniq. by right.
Qed.

Lemma filter_filter_implied (P Q : A → Prop)
    `{!∀ x, Decision (P x)} `{!∀ x, Decision (Q x)} (l : list A) :
  (∀ x, x ∈ l → P x → Q x) → filter P (filter Q l) = filter P l.
Proof.
  induction l as [|a l IH]; intros Himp; [done|].
  rewrite (filter_cons Q), (filter_cons P).
  assert (filter P (filter Q l) = filter P l) as IH'.
  { apply IH. intros x Hx. apply Himp. by right. }
  destruct (decide (Q a)) as [Hq|Hq].
  - rewrite filter_cons. by rewrite IH'.
  - rewrite IH'. rewrite decide_False; [done|].
    intros Hp. apply Hq. apply Himp; [left|done].
Qed.
End more_rows.

(** ** Users: what a new account changes and what it keeps *)

Section more_users.
Import Database.

Lemma create_user_true_inv (db db' : t) (now : Z) (username password : string)
    (email : option string) :
  create_user db now username password email = (true, db') →
  (username ∉ u_username <$> users db) ∧
  (email = None ∨ email ∉ u_email <$> users db) ∧
  db' = Db (users db ++ [UserRow (next_rowid (u_id <$> users db) (users_seq db))
                           username (hash_password password) email now])
           (next_rowid (u_id <$> users db) (users_seq db))
           (models db) (models_seq db).
Proof.
  unfold create_user. intros Hcreate.
  destruct (insert_user db now username (hash_password password) email)
    as [db1|] eqn:Hins; [|done].
  injection Hcreate as <-. by apply insert_user_inv in Hins.
Qed.

Lemma create_user_false_inv (db db' : t) (now : Z) (username password : string)
    (email : option string) :
  create_user db now username password email = (false, db') → db' = db.
Proof.
  unfold create_user. intros Hcreate.
  destruct (insert_user db now username (hash_password password) email); [done|].
  by injection Hcreate.
Qed.

(** What [create_user] leaves behind, whether it succeeds or not. *)
Lemma create_user_cases (db : t) (now : Z) (username password : string)
    (email : option string) :
  (create_user db now username password email).2 = db ∨
  (username ∉ u_username <$> users db) ∧
  ∃ row,
    u_username row = username ∧
    (create_user db now username password email).2 =
      Db (users db ++ [row]) (u_id row) (models db) (models_seq db).
Proof.
  destruct (create_user db now username password email) as [[] db'] eqn:Hcreate.
  - right. apply create_user_true_inv in Hcreate as (Hname & _ & ->).
    split; [done|]. by eexists (UserRow _ _ _ _ _).
  - left. by apply create_user_false_inv in Hcreate.
Qed.
End more_users.

(** X1. A user that [create_user] has created can authenticate: when
    [create_user] returns [True], the new row has an id above every id used
    so far, [authenticate_user] with the same username and password returns
    that id, and [get_user_by_id] with it returns the username, email and
    creation time given. *)
Theorem created_user_can_authenticate
    (db db' : Database.t) (now : Z) (username password : string)
    (email : option string) :
  Database.create_user db now username password email = (true, db') →
  ∃ id,
    Database.users_seq db < id ∧
    (∀ r, r ∈ Database.users db → Database.u_id r < id) ∧
    Database.users_seq db' = id ∧
    Database.authenticate_user db' username password = Some id ∧
    Database.get_user_by_id db' id = Some (Database.UserDict id username email now).
Proof.
  intros Hcreate. apply create_user_true_inv in Hcreate as (Hname & _ & ->).
  exists (Database.next_rowid (Database.u_id <$> Database.users db)
            (Database.users_seq db)).
  split_and!.
  - apply next_rowid_above_seq.
  - intros r Hr. apply next_rowid_fresh. by apply list_elem_of_fmap_2.
  - done.
  - by apply authenticate_new_user.
  - apply get_new_user.
Qed.

(** Dave on a new database: he gets id 1. *)
Lemma created_user_can_authenticate_witness :
  let db' := (Database.create_user Database.init_database 5 "dave" "davepass" None).2 in
  Database.authenticate_user db' "dave" "davepass" = Some 1 ∧
  Database.get_user_by_id db' 1 = Some (Database.UserDict 1 "dave" None 5).
Proof.
  intros db'.
  destruct (created_user_can_authenticate Database.init_database db' 5
              "dave" "davepass" None) as (id & _ & _ & Hseq & Hauth & Hget).
  - vm_compute. reflexivity.
  - assert (id = 1) as -> by (rewrite <- Hseq; vm_compute; reflexivity).
    split; [exact Hauth|exact Hget].
Defined.

(** X2. [create_user] never disturbs the accounts that exist: whether it
    succeeds or not, the models are untouched, every user that
    [get_user_by_id] returned is returned unchanged, every login that
    [authenticate_user] accepted is still accepted with the same id, and for
    every other username [authenticate_user] answers exactly as before. *)
Theorem create_user_keeps_accounts
    (db : Database.t) (now : Z) (username password : string) (email : option string) :
  let db' := (Database.create_user db now username password email).2 in
  Database.models db' = Database.models db ∧
  Database.models_seq db' = Database.models_seq db ∧
  (∀ user_id user,
     Database.get_user_by_id db user_id = Some user →
     Database.get_user_by_id db' user_id = Some user) ∧
  (∀ username' password' user_id,
     Database.authenticate_user db username' password' = Some user_id →
     Database.authenticate_user db' username' password' = Some user_id) ∧
  (∀ username' password',
     username' ≠ username →
     Database.authenticate_user db' username' password'
       = Database.authenticate_user db username' password').
Proof.
  intros db'. unfold db'.
  destruct (create_user_cases db now username password email)
    as [->|(Hname & row & Hrow & ->)]; [done|].
  split_and!; try done.
  - intros user_id user. unfold Database.get_user_by_id. cbn [Database.users].
    destruct (List.find _ (Database.users db)) as [r|] eqn:Hfind; [|done].
    by rewrite (find_app_first _ _ _ _ Hfind).
  - intros username' password' user_id. unfold Database.authenticate_user.
    cbn [Database.users].
    destruct (List.find _ (Database.users db)) as [r|] eqn:Hfind; [|done].
    by rewrite (find_app_first _ _ _ _ Hfind).
  - intros username' password' Hne. unfold Database.authenticate_user.
    cbn [Database.users].
    destruct (List.find _ (Database.users db)) as [r|] eqn:Hfind.
    + by rewrite (find_app_first _ _ _ _ Hfind).
    + rewrite (find_app_none _ _ _ Hfind). simpl.
      rewrite bool_decide_eq_false_2; [done|]. congruence.
Qed.

(** Bob signs up after Alice: Alice's record and login are as before, and
    Bob's password does not open Alice's account. *)
Lemma create_user_keeps_accounts_witness :
  let db' := (Database.create_user Sample.db_alice 101 "bob" "secret2" None).2 in
  Database.get_user_by_id db' 1
    = Some (Database.UserDict 1 "alice" (Some "a@x.com"%string) 100) ∧
  Database.authenticate_user db' "alice" "secret1" = Some 1 ∧
  Database.authenticate_user db' "alice" "secret2"
    = Database.authenticate_user Sample.db_alice "alice" "secret2".
Proof.
  intros db'.
  destruct (create_user_keeps_accounts Sample.db_alice 101 "bob" "secret2" None)
    as (_ & _ & Hget & Hauth & Hother).
  split_and!.
  - apply Hget. vm_compute. reflexivity.
  - apply Hauth. vm_compute. reflexivity.
  - apply Hother. discriminate.
Defined.

(** ** Models: fetching, deleting, saving *)

Section more_models.
Import Database.

(** With unique ids, a row is fetched by its id and owner. *)
Lemma get_model_by_id_own (db : t) (r : model_row) :
  NoDup (m_id <$> models db) → r ∈ models db →
  get_model_by_id db (m_id r) (m_user_id r) = Some (model_dict_of_row r).
Proof.
  intros Hids Hr. unfold get_model_by_id.
  rewrite (find_unique _ _ r); [done|done| |].
  - by apply bool_decide_eq_true.
  - intros x Hx Hown. apply bool_decide_eq_true in Hown as [Hid _].
    by eapply unique_column.
Qed.



Lemma save_model_false_inv (db db' : t) (now user_id : Z) (model_name : string)
    (model_data : gmap string pyval) :
  save_model db now user_id model_name model_data = (false, db') → db' = db.
Proof.
  unfold save_model, replace_model. intros Hsave.
  repeat case_match; simplify_eq; done.
Qed.

Lemma retired_save_model (model_id : Z) (db : t) (now user_id : Z)
    (model_name : string) (model_data : gmap string pyval) :
  Order.retired model_id db →
  Order.retired model_id (save_model db now user_id model_name model_data).2.
Proof.
  intros [Hseq Hnone].
  destruct (save_model db now user_id model_name model_data) as [[] db'] eqn:Hsave.
  - apply save_model_inv in Hsave as (row & t0 & t1 & -> & Hid & _).
    pose proof (next_rowid_above_seq (m_id <$> models db) (models_seq db)).
    split; simpl; [lia|].
    intros x Hx. apply elem_of_app in Hx as [Hx|Hx].
    + apply list_elem_of_filter in Hx as [_ Hx]. by apply Hnone.
    + apply list_elem_of_singleton in Hx as ->. lia.
  - apply save_model_false_inv in Hsave as ->. done.
Qed.

Lemma retired_step (model_id : Z) (w : Server.world) (c : Server.call) :
  Order.retired model_id (Server.db w) → Order.retired model_id (Server.db (Server.step w c)).
Proof.
  intros Hret. destruct c; simpl; try done.
  - destruct (create_user_cases (Server.db w) now username password email)
      as [->|(_ & row & _ & ->)]; [done|]. exact Hret.
  - by apply retired_save_model.
  - destruct Hret as [Hseq Hnone]. split; simpl; [done|].
    intros x Hx. apply list_elem_of_filter in Hx as [_ Hx]. by apply Hnone.
  - unfold AuthController.signup.
    destruct (PyStr.len username <? 3); [done|].
    destruct (PyStr.len password <? 6); [done|].
    destruct (create_user_cases (Server.db w) now username password email)
      as [Hsame|(_ & row & _ & Hnew)];
      destruct (create_user (Server.db w) now username password email)
        as [success db'];
      simpl in *; subst db'; destruct success; simpl; by repeat case_match.
Qed.

Lemma retired_run (model_id : Z) (w : Server.world) (cs : list Server.call) :
  Order.retired model_id (Server.db w) → Order.retired model_id (Server.db (Server.run w cs)).
Proof.
  revert w. induction cs as [|c cs IH]; intros w Hret; [done|].
  simpl. apply IH. by apply retired_step.
Qed.
End more_models.



(** X4. The id of a deleted model is never used again: after [delete_model]
    has removed a row, whatever calls follow (saves under any name, by any
    user, other deletions, signups), [get_model_by_id] with the old id
    returns [None] for every caller, because AUTOINCREMENT gives every new
    row an id above all ids the table ever held. *)
Theorem deleted_id_never_returns
    (db : Database.t) (r : Database.model_row)
    (active_sessions : gmap string AuthController.session)
    (cs : list Server.call) (caller : Z) :
  Schema.wf db →
  r ∈ Database.models db →
  Database.get_model_by_id
    (Server.db
       (Server.run
          (Server.World
             (Database.delete_model db (Database.m_id r) (Database.m_user_id r)).2
             active_sessions) cs))
    (Database.m_id r) caller = None.
Proof.
  intros Hwf Hr.
  apply get_model_by_id_none.
  assert (Order.retired (Database.m_id r)
            (Database.delete_model db (Database.m_id r) (Database.m_user_id r)).2)
    as Hret.
  { split; simpl; [apply (Schema.wf_model_range db Hwf r Hr)|].
    intros x Hx Hid. apply list_elem_of_filter in Hx as [Hnot Hx].
    assert (x = r) as ->
      by (eapply unique_column; [apply (Schema.wf_model_ids db Hwf)|done..]).
    by apply Hnot. }
  pose proof (retired_run _ (Server.World _ active_sessions) cs Hret) as [_ Hnone].
  intros x Hx [Hid _]. by apply (Hnone x Hx).
Qed.

(** Alice deletes model 1, then saves twice and Bob saves once: id 1 stays
    unused. *)
Lemma deleted_id_never_returns_witness :
  Database.get_model_by_id
    (Server.db
       (Server.run
          (Server.World (Database.delete_model Sample.db_two_users 1 1).2
             AuthController.init)
          [Server.SaveModel 300 1 "m1" (Sample.metrics Sample.f1_5 Sample.f2_3);
           Server.SaveModel 301 2 "m9" (Sample.metrics Sample.f1_5 Sample.f2_3);
           Server.SaveModel 302 1 "m1" (Sample.metrics Sample.f2_3 Sample.f1_5)]))
    1 1 = None.
Proof.
  apply (deleted_id_never_returns Sample.db_two_users Sample.alice_model
           AuthController.init _ 1 wf_db_two_users).
  left.
Defined.



(** X6. A saved model can be read back: when [save_model] returns [True],
    the counter of the table has advanced to the id of the new row,
    [get_model_by_id] with that id and the user returns an entry with the
    name given and the creation time of the call, and [get_user_models]
    lists that entry. *)
Theorem saved_model_can_be_fetched
    (db db' : Database.t) (now user_id : Z) (model_name : string)
    (model_data : gmap string pyval) :
  Database.save_model db now user_id model_name model_data = (true, db') →
  Database.models_seq db < Database.models_seq db' ∧
  ∃ entry,
    Database.get_model_by_id db' (Database.models_seq db') user_id = Some entry ∧
    entry ∈ Database.get_user_models db' user_id ∧
    Database.md_id entry = Database.models_seq db' ∧
    Database.md_model_name entry = model_name ∧
    Database.md_created_at entry = now.
Proof.
  intros Hsave.
  apply save_model_inv in Hsave
    as (row & t0 & t1 & -> & Hid & Huser & Hname & _ & _ & _ & _ & _ & _ & _ & _
        & _ & _ & _ & Hnow).
  cbn [Database.models_seq]. split.
  - rewrite Hid. apply next_rowid_above_seq.
  - exists (Database.model_dict_of_row row). split_and!; try done.
    + unfold Database.get_model_by_id. cbn [Database.models].
      rewrite find_app_last; [done| |].
      * intros x Hx. apply bool_decide_eq_false. intros [Hxid _].
        apply list_elem_of_filter in Hx as [_ Hx].
        assert (Database.m_id x < Database.m_id row); [|lia].
        rewrite Hid. apply next_rowid_fresh. by apply list_elem_of_fmap_2.
      * by apply bool_decide_eq_true.
    + apply elem_of_get_user_models. exists row. split_and!; [|done..].
      cbn [Database.models]. apply elem_of_app. right. left.
Qed.

(** Bob saves a second model; it gets id 3. *)
Lemma saved_model_can_be_fetched_witness :
  let db' := (Database.save_model Sample.db_two_users 300 2 "m2"
                (Sample.metrics Sample.f1_5 Sample.f2_3)).2 in
  ∃ entry,
    Database.get_model_by_id db' 3 2 = Some entry ∧
    Database.md_model_name entry = "m2".
Proof.
  intros db'.
  destruct (saved_model_can_be_fetched Sample.db_two_users db' 300 2 "m2"
              (Sample.metrics Sample.f1_5 Sample.f2_3))
    as (_ & entry & Hget & _ & _ & Hname & _).
  - vm_compute. reflexivity.
  - exists entry. split; [|exact Hname].
    assert (Database.models_seq db' = 3) as <- by (vm_compute; reflexivity).
    exact Hget.
Defined.

(** X7. A save touches nothing but the model saved: whether [save_model]
    succeeds or not, the users are as before, every row with another user
    or another name is still in the table and is fetched unchanged, and the
    list of every other user is the same as before. *)
Theorem save_model_keeps_other_models
    (db : Database.t) (now user_id : Z) (model_name : string)
    (model_data : gmap string pyval) :
  Schema.wf db →
  let db' := (Database.save_model db now user_id model_name model_data).2 in
  Database.users db' = Database.users db ∧
  Database.users_seq db' = Database.users_seq db ∧
  (∀ r, r ∈ Database.models db →
        ¬ Database.same_model_key user_id model_name r →
        r ∈ Database.models db' ∧
        Database.get_model_by_id db' (Database.m_id r) (Database.m_user_id r)
          = Some (Database.model_dict_of_row r)) ∧
  (∀ other, other ≠ user_id →
            Database.get_user_models db' other = Database.get_user_models db other).
Proof.
  intros Hwf. cbv zeta.
  pose proof (wf_save_model db now user_id model_name model_data Hwf) as Hwf'.
  destruct (Database.save_model db now user_id model_name model_data)
    as [[] db'] eqn:Hsave; simpl in *.
  - apply save_model_inv in Hsave as (row & t0 & t1 & Hdb & Hid & Huser & Hname & _).
    assert (∀ r, r ∈ Database.models db' →
                 Database.get_model_by_id db' (Database.m_id r) (Database.m_user_id r)
                   = Some (Database.model_dict_of_row r)) as Hfetch.
    { intros r Hr.
      apply get_model_by_id_own; [apply (Schema.wf_model_ids db' Hwf')|done]. }
    clear Hwf'. subst db'. cbn [Database.models Database.users Database.users_seq] in *.
    split_and!; try done.
    + intros r Hr Hkey.
      assert (r ∈ filter (fun r0 => ¬ Database.same_model_key user_id model_name r0)
                    (Database.models db) ++ [row]) as Hin.
      { apply elem_of_app. left. by apply list_elem_of_filter. }
      split; [done|]. by apply Hfetch.
    + intros other Hne. unfold Database.get_user_models. cbn [Database.models].
      rewrite filter_app.
      rewrite (filter_drops_all _ [row]).
      * rewrite app_nil_r. rewrite filter_filter_implied; [done|].
        intros x _ Hx [Hxu _]. congruence.
      * intros x Hx Hxu. apply list_elem_of_singleton in Hx as ->. congruence.
  - apply save_model_false_inv in Hsave. subst db'.
    split_and!; try done. intros r Hr _. split; [done|].
    apply get_model_by_id_own; [apply (Schema.wf_model_ids db Hwf)|done].
Qed.

(** Alice saves ["m1"] again: Bob's model is fetched as before and his list
    is the same. *)
Lemma save_model_keeps_other_models_witness :
  let db' := (Database.save_model Sample.db_two_users 300 1 "m1"
                (Sample.metrics Sample.f2_3 Sample.f1_5)).2 in
  Database.users db' = Database.users Sample.db_two_users ∧
  Database.get_user_models db' 2 = Database.get_user_models Sample.db_two_users 2.
Proof.
  intros db'.
  destruct (save_model_keeps_other_models Sample.db_two_users 300 1 "m1"
              (Sample.metrics Sample.f2_3 Sample.f1_5) wf_db_two_users)
    as (Husers & _ & _ & Hlists).
  split; [exact Husers|]. apply Hlists. discriminate.
Defined.



(** ** The order of a list of models *)

Section ordering.
Import Database.

Lemma insert_newest_first_sorted (r : model_row) (rows : list model_row) :
  StronglySorted (fun a b => m_created_at b <= m_created_at a) rows →
  StronglySorted (fun a b => m_created_at b <= m_created_at a)
    (insert_newest_first r rows).
Proof.
  induction rows as [|r' rows IH]; intros Hsorted; simpl.
  - repeat constructor.
  - apply StronglySorted_inv in Hsorted as [Hrest Hall].
    destruct (Z.leb_spec (m_created_at r') (m_created_at r)) as [Hle|Hlt].
    + constructor; [by constructor|].
      constructor; [done|].
      eapply Forall_impl; [exact Hall|]. simpl. intros x Hx. lia.
    + constructor; [by apply IH|].
      rewrite insert_newest_first_perm. constructor; [lia|done].
Qed.

Lemma order_by_created_at_desc_sorted (rows : list model_row) :
  StronglySorted (fun a b => m_created_at b <= m_created_at a)
    (order_by_created_at_desc rows).
Proof.
  induction rows as [|r rows IH]; simpl; [constructor|].
  by apply insert_newest_first_sorted.
Qed.

Lemma newest_first_fmap (rows : list model_row) :
  StronglySorted (fun a b => m_created_at b <= m_created_at a) rows →
  Order.newest_first (model_dict_of_row <$> rows).
Proof.
  unfold Order.newest_first.
  induction 1 as [|r rows Hsorted IH Hall]; simpl; constructor; [done|].
  apply Forall_fmap. eapply Forall_impl; [exact Hall|]. done.
Qed.
End ordering.

(** X9. [get_user_models] returns the models of the user and no others, the
    newest first: the list is a rearrangement of the user's rows of [models]
    (each row once), and no entry is followed by one created later. *)
Theorem get_user_models_newest_first (db : Database.t) (user_id : Z) :
  Order.newest_first (Database.get_user_models db user_id) ∧
  Database.get_user_models db user_id ≡ₚ
    Database.model_dict_of_row <$>
      filter (fun r => Database.m_user_id r = user_id) (Database.models db).
Proof.
  unfold Database.get_user_models. split.
  - apply newest_first_fmap, order_by_created_at_desc_sorted.
  - by rewrite order_by_created_at_desc_perm.
Qed.

(** X10. The constraints that the schema declares hold in every state of
    the server: they hold in the new database, and every call of a method
    of [Database] or [AuthController] keeps them. So ids are unique and
    between 1 and the counter of their table, usernames are unique, emails
    are unique where present, and a user has one model of a name. *)
Theorem schema_constraints_always_hold (w : Server.world) (cs : list Server.call) :
  Schema.wf Database.init_database ∧
  (Schema.wf (Server.db w) → Schema.wf (Server.db (Server.run w cs))).
Proof. split; [apply wf_init_database|apply wf_run]. Qed.

(** From start-up through the calls that build the sample database. *)
Lemma schema_constraints_always_hold_witness :
  Schema.wf (Server.db (Server.run Server.boot Sample.two_users_calls)).
Proof.
  apply (schema_constraints_always_hold Server.boot Sample.two_users_calls).
  apply wf_init_database.
Defined.

(** ** Signing up and signing in: every way the calls can end *)

Section endings.
Import Database AuthController.

(** The two ways [signup] ends. *)
Lemma signup_cases (db : t) (now : Z) (username password : string)
    (email : option string) :
  (3 <= PyStr.len username ∧ 6 <= PyStr.len password ∧
   (username ∉ u_username <$> users db) ∧
   (email = None ∨ email ∉ u_email <$> users db) ∧
   signup db now username password email =
     (Return (SignupResponse true "User created successfully"
                (PublicUser (next_rowid (u_id <$> users db) (users_seq db))
                   username email)),
      Db (users db ++ [UserRow (next_rowid (u_id <$> users db) (users_seq db))
                         username (hash_password password) email now])
         (next_rowid (u_id <$> users db) (users_seq db))
         (models db) (models_seq db))) ∨
  ((PyStr.len username < 3 ∨ PyStr.len password < 6 ∨
    username ∈ u_username <$> users db ∨
    (is_Some email ∧ email ∈ u_email <$> users db)) ∧
   ∃ detail, signup db now username password email = (HTTPException 400 detail, db)).
Proof.
  unfold signup.
  destruct (Z.ltb_spec (PyStr.len username) 3) as [Hu|Hu];
    [right; split; [by left|by eexists]|].
  destruct (Z.ltb_spec (PyStr.len password) 6) as [Hp|Hp];
    [right; split; [by right; left|by eexists]|].
  unfold create_user.
  destruct (decide (username ∈ u_username <$> users db)) as [Hname|Hname].
  { right. split; [by right; right; left|].
    rewrite insert_user_duplicate_username by done. by eexists. }
  destruct (decide (is_Some email ∧ email ∈ u_email <$> users db))
    as [[[address ->] Hmail]|Hmail].
  { right. split; [right; right; right; split; [by eexists|done]|].
    rewrite insert_user_duplicate_email by done. by eexists. }
  assert (email = None ∨ email ∉ u_email <$> users db) as Hfree.
  { destruct email as [address|]; [right|by left].
    intros Hin. apply Hmail. split; [by eexists|done]. }
  left. split_and!; try done.
  rewrite insert_user_fresh by done. cbv zeta. simpl negb. cbv iota.
  rewrite authenticate_new_user by done.
  rewrite get_new_user. done.
Qed.

(** The two ways [signin] ends. *)
Lemma signin_cases (db : t) (active_sessions : gmap string session)
    (rnd : list Z) (username password : string) :
  (∃ r user,
     r ∈ users db ∧ u_username r = username ∧
     u_password_hash r = hash_password password ∧
     get_user_by_id db (u_id r) = Some user ∧
     signin db active_sessions rnd username password =
       (Return (SigninResponse true "Sign in successful" (UUID.str (UUID.uuid4 rnd))
                  (PublicUser (ud_id user) (ud_username user) (ud_email user))),
        <[UUID.str (UUID.uuid4 rnd) :=
            Session (u_id r) (ud_username user) "2024-01-01"]> active_sessions)) ∨
  signin db active_sessions rnd username password =
    (HTTPException 401 "Invalid username or password", active_sessions).
Proof.
  unfold signin, authenticate_user.
  destruct (List.find _ (users db)) as [r|] eqn:Hfind; [|by right].
  apply find_some_elem in Hfind as [Hr Hname].
  apply bool_decide_eq_true in Hname.
  unfold verify_password. case_bool_decide as Hhash; [|by right].
  simpl. destruct (u_id r =? 0); [by right|]. simpl.
  assert (is_Some (get_user_by_id db (u_id r))) as [user Huser].
  { unfold get_user_by_id.
    destruct (List.find (fun x => bool_decide (u_id x = u_id r)) (users db))
      as [x|] eqn:Hx; [by eexists|].
    exfalso. apply list_elem_of_In in Hr. apply (find_none _ _ Hx r) in Hr.
    by apply bool_decide_eq_false in Hr. }
  left. exists r, user. rewrite Huser. simpl. done.
Qed.

(** A user row is found by its id when ids are unique. *)
Lemma get_user_by_id_own (db : t) (r : user_row) :
  NoDup (u_id <$> users db) → r ∈ users db →
  get_user_by_id db (u_id r) =
    Some (UserDict (u_id r) (u_username r) (u_email r) (u_created_at r)).
Proof.
  intros Hids Hr. unfold get_user_by_id.
  rewrite (find_unique _ _ r); [done|done| |].
  - by apply bool_decide_eq_true.
  - intros x Hx Hid. apply bool_decide_eq_true in Hid. by eapply unique_column.
Qed.

(** [str] of a UUID is never the empty string. *)
Lemma uuid_str_nonempty (u : Z) : UUID.str u ≠ "".
Proof.
  intros Hempty. apply (f_equal String.length) in Hempty.
  unfold UUID.str in Hempty. cbv zeta in Hempty.
  rewrite !length_append in Hempty. simpl in Hempty. lia.
Qed.
End endings.



(** X12. Correct credentials always sign in: under the constraints of the
    schema, for a row of [users] and a password whose hash is the stored
    one, [signin] with the username of the row returns the id, username and
    email of that row, with the text of the UUID drawn as session
    identifier, and stores under it a session for that user. *)
Theorem correct_credentials_sign_in
    (db : Database.t) (active_sessions : gmap string AuthController.session)
    (rnd : list Z) (r : Database.user_row) (password : string) :
  Schema.wf db →
  r ∈ Database.users db →
  Database.u_password_hash r = Database.hash_password password →
  AuthController.signin db active_sessions rnd (Database.u_username r) password =
    (Return (AuthController.SigninResponse true "Sign in successful"
               (UUID.str (UUID.uuid4 rnd))
               (AuthController.PublicUser (Database.u_id r) (Database.u_username r)
                  (Database.u_email r))),
     <[UUID.str (UUID.uuid4 rnd) :=
         AuthController.Session (Database.u_id r) (Database.u_username r)
           "2024-01-01"]> active_sessions).
Proof.
  intros Hwf Hr Hhash.
  unfold AuthController.signin, Database.authenticate_user.
  rewrite (find_unique _ _ r); [|done| |].
  - unfold Database.verify_password. rewrite bool_decide_eq_true_2 by done.
    pose proof (Schema.wf_user_range db Hwf r Hr) as Hrange.
    simpl. rewrite (proj2 (Z.eqb_neq _ _)) by lia. simpl.
    rewrite get_user_by_id_own; [done|apply (Schema.wf_user_ids db Hwf)|done].
  - by apply bool_decide_eq_true.
  - intros x Hx Hname. apply bool_decide_eq_true in Hname.
    eapply unique_column; [apply (Schema.wf_usernames db Hwf)|done..].
Qed.

(** Bob, in the database of two users, with his password. *)
Lemma correct_credentials_sign_in_witness :
  returned
    (AuthController.signin Sample.db_two_users AuthController.init Sample.rnd
       "bob" "secret2").1 = true.
Proof.
  assert (Database.UserRow 2 "bob" (Database.hash_password "secret2") None 101
          ∈ Database.users Sample.db_two_users) as Hin
    by (vm_compute; right; left).
  pose proof (correct_credentials_sign_in Sample.db_two_users AuthController.init
                Sample.rnd _ "secret2" wf_db_two_users Hin eq_refl) as Hsignin.
  cbn [Database.u_username Database.u_id Database.u_email] in Hsignin.
  rewrite Hsignin. reflexivity.
Defined.

(** X13. [signin] ends in one of two ways only, and accepts only a stored
    hash: when it does not return, it has raised [HTTPException] with
    status 401 and the sessions are as before; when it returns, some row of
    [users] has that username and the hash of that password; and in either
    case no session other than the one under the new identifier is added,
    changed or removed. *)
Theorem signin_returns_or_401
    (db : Database.t) (active_sessions : gmap string AuthController.session)
    (rnd : list Z) (username password : string) :
  (returned (AuthController.signin db active_sessions rnd username password).1 = false →
   AuthController.signin db active_sessions rnd username password =
     (HTTPException 401 "Invalid username or password", active_sessions)) ∧
  (returned (AuthController.signin db active_sessions rnd username password).1 = true →
   ∃ r, r ∈ Database.users db ∧ Database.u_username r = username ∧
        Database.u_password_hash r = Database.hash_password password) ∧
  (∀ s, s ≠ UUID.str (UUID.uuid4 rnd) →
        (AuthController.signin db active_sessions rnd username password).2 !! s
          = active_sessions !! s).
Proof.
  destruct (signin_cases db active_sessions rnd username password)
    as [(r & user & Hr & Hname & Hhash & Huser & ->)| ->]; simpl.
  - split_and!; [discriminate|by exists r|].
    intros s Hs. by rewrite lookup_insert_ne.
  - split_and!; [done|discriminate|done].
Qed.

(** Alice with a wrong password; and her session survives Bob's signin. *)
Lemma signin_returns_or_401_witness :
  AuthController.signin Sample.db_alice AuthController.init Sample.rnd
    "alice" "letmein" =
    (HTTPException 401 "Invalid username or password", AuthController.init) ∧
  (AuthController.signin Sample.db_two_users Sample.bob_sessions
     [7; 7; 7; 7; 7; 7; 7; 7; 7; 7; 7; 7; 7; 7; 7; 7] "alice" "secret1").2
    !! "00010203-0405-4607-8809-0a0b0c0d0e0f"
  = Sample.bob_sessions !! "00010203-0405-4607-8809-0a0b0c0d0e0f".
Proof.
  split.
  - apply (signin_returns_or_401 Sample.db_alice AuthController.init Sample.rnd
             "alice" "letmein").
    vm_compute. reflexivity.
  - apply (signin_returns_or_401 Sample.db_two_users Sample.bob_sessions
             [7; 7; 7; 7; 7; 7; 7; 7; 7; 7; 7; 7; 7; 7; 7; 7] "alice" "secret1").
    vm_compute. discriminate.
Defined.

(** X14. After a signin, the session answers for the user who signed in:
    when [signin] returns, [get_current_user] with the identifier returned
    gives a user with the id, username and email of the response, and the
    route [/me] with that cookie answers status 200, authenticated, with
    the same user. *)
Theorem signin_then_current_user
    (db : Database.t) (active_sessions after : gmap string AuthController.session)
    (rnd : list Z) (username password : string)
    (result : AuthController.signin_response) :
  AuthController.signin db active_sessions rnd username password
    = (Return result, after) →
  (∃ user,
     AuthController.get_current_user db after (AuthController.si_session_id result)
       = Some user ∧
     AuthController.PublicUser (Database.ud_id user) (Database.ud_username user)
       (Database.ud_email user) = AuthController.si_user result) ∧
  AccountRoutes.get_current_user db after
    (Some (AuthController.si_session_id result)) =
    AccountRoutes.Response
      (AccountRoutes.Authenticated (AuthController.si_user result)) 200.
Proof.
  intros Hsignin.
  destruct (signin_cases db active_sessions rnd username password)
    as [(r & user & Hr & Hname & Hhash & Huser & Heq)|Heq];
    rewrite Heq in Hsignin; [|done].
  injection Hsignin as <- <-. simpl.
  assert (AuthController.get_current_user db
            (<[UUID.str (UUID.uuid4 rnd) :=
                 AuthController.Session (Database.u_id r) (Database.ud_username user)
                   "2024-01-01"]> active_sessions)
            (UUID.str (UUID.uuid4 rnd)) = Some user) as Hcurrent.
  { unfold AuthController.get_current_user, AuthController.get_session.
    by rewrite lookup_insert_eq. }
  split; [by exists user|].
  unfold AccountRoutes.get_current_user, Routes.no_cookie.
  rewrite bool_decide_eq_false_2 by apply uuid_str_nonempty.
  simpl. by rewrite Hcurrent.
Qed.

(** Alice signs in and asks who she is. *)
Lemma signin_then_current_user_witness :
  ∃ result after,
    AuthController.signin Sample.db_alice AuthController.init Sample.rnd
      "alice" "secret1" = (Return result, after) ∧
    AccountRoutes.get_current_user Sample.db_alice after
      (Some (AuthController.si_session_id result)) =
      AccountRoutes.Response
        (AccountRoutes.Authenticated (AuthController.si_user result)) 200.
Proof.
  destruct (returned_inv (AuthController.signin Sample.db_alice AuthController.init
                            Sample.rnd "alice" "secret1"))
    as (result & after & Hsignin); [vm_compute; reflexivity|].
  exists result, after. split; [exact Hsignin|].
  apply (signin_then_current_user Sample.db_alice AuthController.init after
           Sample.rnd "alice" "secret1" result Hsignin).
Defined.

(** ** Sessions and the users behind them *)

Section resolving.
Import Database AuthController.

Lemma save_model_users (db : t) (now user_id : Z) (model_name : string)
    (model_data : gmap string pyval) :
  users (save_model db now user_id model_name model_data).2 = users db.
Proof.
  destruct (save_model db now user_id model_name model_data) as [[] db'] eqn:Hsave.
  - by apply save_model_inv in Hsave as (row & t0 & t1 & -> & _).
  - by apply save_model_false_inv in Hsave as ->.
Qed.

(** No call removes or changes a row of [users]. *)
Lemma step_users_grow (w : Server.world) (c : Server.call) :
  ∃ extra, users (Server.db (Server.step w c)) = users (Server.db w) ++ extra.
Proof.
  destruct c; simpl; try (by exists []; rewrite app_nil_r).
  - destruct (create_user_cases (Server.db w) now username password email)
      as [->|(_ & row & _ & ->)]; [by exists []; rewrite app_nil_r|by exists [row]].
  - exists []. by rewrite app_nil_r, save_model_users.
  - destruct (signup_cases (Server.db w) now username password email)
      as [(_ & _ & _ & _ & ->)|[_ (detail & ->)]]; simpl;
      [by eexists [_]|by exists []; rewrite app_nil_r].
Qed.

Lemma get_user_by_id_grows (db db' : t) (extra : list user_row) (user_id : Z) :
  users db' = users db ++ extra →
  is_Some (get_user_by_id db user_id) → is_Some (get_user_by_id db' user_id).
Proof.
  intros Husers [user Huser]. exists user. revert Huser.
  unfold get_user_by_id. rewrite Husers.
  destruct (List.find _ (users db)) as [r|] eqn:Hfind; [|done].
  by rewrite (find_app_first _ _ _ _ Hfind).
Qed.

Lemma sessions_resolve_step (w : Server.world) (c : Server.call) :
  ¬ Order.opens_session_directly c →
  Order.sessions_resolve w → Order.sessions_resolve (Server.step w c).
Proof.
  intros Hdirect Hres s Hs.
  destruct (step_users_grow w c) as [extra Hgrow].
  assert (∀ m : gmap string session,
            (∀ s', is_Some (m !! s') → is_Some (Server.active_sessions w !! s')
                                        ∧ m !! s' = Server.active_sessions w !! s') →
            is_authenticated m s = true →
            is_Some (get_current_user (Server.db (Server.step w c)) m s)) as Hsub.
  { intros m Hm Hauth. apply is_authenticated_true, elem_of_dom in Hauth.
    destruct (Hm s Hauth) as [Hold Hsame].
    specialize (Hres s). unfold get_current_user, get_session in Hres |- *.
    rewrite Hsame. destruct (Server.active_sessions w !! s) as [sess|] eqn:Hsess;
      [|by destruct Hold].
    eapply get_user_by_id_grows; [exact Hgrow|].
    apply Hres.
    apply is_authenticated_true, elem_of_dom. by rewrite Hsess. }
  destruct c; simpl in *; try (by apply Hsub).
  - apply Hsub; [|done]. intros s'. rewrite delete_session_lookup.
    case_decide; [by intros []|done].
  - destruct (signin_cases (Server.db w) (Server.active_sessions w) rnd
                username password)
      as [(r & user & Hr & Hname & Hhash & Huser & Heq)|Heq];
      rewrite Heq in Hs |- *; simpl in *; [|by apply Hsub].
    destruct (decide (s = UUID.str (UUID.uuid4 rnd))) as [->|Hne].
    + unfold get_current_user, get_session. rewrite lookup_insert_eq. simpl.
      by rewrite Huser.
    + unfold get_current_user, get_session. rewrite lookup_insert_ne by done.
      apply is_authenticated_true, elem_of_dom in Hs.
      rewrite lookup_insert_ne in Hs by done.
      apply (Hres s). by apply is_authenticated_true, elem_of_dom.
  - apply Hsub; [|done]. intros s'. rewrite signout_lookup.
    case_decide; [by intros []|done].
Qed.
End resolving.

(** X15. Signing out ends one session and no other: for every other
    identifier, [get_session], [is_authenticated] and [get_current_user]
    answer after [signout(s)] as they did before; [signout(s)] of an active
    session reports success, and a second [signout(s)] reports "Session not
    found" and changes nothing. *)
Theorem signout_keeps_other_sessions
    (db : Database.t) (active_sessions : gmap string AuthController.session)
    (s : string) :
  let after := (AuthController.signout active_sessions s).2 in
  (∀ s', s' ≠ s →
     AuthController.get_session after s' = AuthController.get_session active_sessions s' ∧
     AuthController.is_authenticated after s'
       = AuthController.is_authenticated active_sessions s' ∧
     AuthController.get_current_user db after s'
       = AuthController.get_current_user db active_sessions s') ∧
  (AuthController.is_authenticated active_sessions s = true →
   (AuthController.signout active_sessions s).1
     = AuthController.SignoutResponse true "Sign out successful") ∧
  AuthController.signout after s
    = (AuthController.SignoutResponse false "Session not found", after).
Proof.
  intros after.
  assert (∀ s', s' ≠ s → after !! s' = active_sessions !! s') as Hother.
  { intros s' Hne. unfold after. rewrite signout_lookup. by rewrite decide_False. }
  split_and!.
  - intros s' Hne. specialize (Hother s' Hne).
    unfold AuthController.get_current_user, AuthController.get_session.
    rewrite Hother. split_and!; try done.
    unfold AuthController.is_authenticated.
    apply bool_decide_ext. by rewrite !elem_of_dom, Hother.
  - intros Hactive. unfold AuthController.signout.
    unfold AuthController.is_authenticated in Hactive. by rewrite Hactive.
  - unfold AuthController.signout at 1.
    rewrite bool_decide_eq_false_2; [done|].
    apply not_elem_of_dom. unfold after. rewrite signout_lookup.
    by rewrite decide_True.
Qed.

(** Bob signs out; a signout of another identifier had left him signed in. *)
Lemma signout_keeps_other_sessions_witness :
  AuthController.is_authenticated
    (AuthController.signout Sample.bob_sessions "some-other-session").2
    "00010203-0405-4607-8809-0a0b0c0d0e0f"
  = AuthController.is_authenticated Sample.bob_sessions
      "00010203-0405-4607-8809-0a0b0c0d0e0f" ∧
  (AuthController.signout Sample.bob_sessions
     "00010203-0405-4607-8809-0a0b0c0d0e0f").1
  = AuthController.SignoutResponse true "Sign out successful".
Proof.
  split.
  - apply (signout_keeps_other_sessions Database.init_database Sample.bob_sessions
             "some-other-session").
    discriminate.
  - apply (signout_keeps_other_sessions Database.init_database Sample.bob_sessions
             "00010203-0405-4607-8809-0a0b0c0d0e0f").
    vm_compute. reflexivity.
Defined.

(** X16. Sessions opened by [signin] always answer for a user: no call
    removes a row of [users], so, from start-up on, as long as no session is
    opened by calling [create_session] directly, every identifier for which
    [is_authenticated] is true is one for which [get_current_user] returns a
    user. *)
Theorem sessions_keep_resolving (w : Server.world) (cs : list Server.call) :
  Order.sessions_resolve Server.boot ∧
  (Order.sessions_resolve w →
   Forall (fun c => ¬ Order.opens_session_directly c) cs →
   Order.sessions_resolve (Server.run w cs)).
Proof.
  split.
  - intros s Hs. apply is_authenticated_true in Hs. simpl in Hs.
    unfold AuthController.init in Hs. by rewrite dom_empty_L in Hs.
  - revert w. induction cs as [|c cs IH]; intros w Hres Hcs; [done|].
    apply Forall_cons in Hcs as [Hc Hcs]. simpl.
    apply IH; [|done]. by apply sessions_resolve_step.
Qed.

(** Alice signs up, signs in, saves a model; Bob signs up. *)
Lemma sessions_keep_resolving_witness :
  Order.sessions_resolve
    (Server.run Server.boot
       [Server.Signup 100 "alice" "secret1" (Some "a@x.com"%string);
        Server.Signin Sample.rnd "alice" "secret1";
        Server.SaveModel 200 1 "m1" (Sample.metrics Sample.f1_5 Sample.f2_3);
        Server.Signup 101 "bob" "secret2" None]).
Proof.
  destruct (sessions_keep_resolving Server.boot
              [Server.Signup 100 "alice" "secret1" (Some "a@x.com"%string);
               Server.Signin Sample.rnd "alice" "secret1";
               Server.SaveModel 200 1 "m1" (Sample.metrics Sample.f1_5 Sample.f2_3);
               Server.Signup 101 "bob" "secret2" None]) as [Hboot Hrun].
  apply Hrun; [exact Hboot|].
  repeat (apply Forall_cons; split; [intros Hc; exact Hc|]).
  apply Forall_nil_2.
Defined.



(** ** The routes *)

(** X18. The model routes do nothing without a session that answers for a
    user: when the cookie is absent or empty, or [get_current_user] returns
    [None] for it, saving, listing, fetching and deleting all answer status
    401 with a failure body, and the database is as before. *)
Theorem model_routes_require_session
    (db : Database.t) (active_sessions : gmap string AuthController.session)
    (session_id : option string) :
  Routes.no_cookie session_id = true ∨
  AuthController.get_current_user db active_sessions (default "" session_id) = None →
  (∀ now model_name theta_0 theta_1 rmse mae r2_score
     sklearn_rmse sklearn_mae sklearn_r2,
     ∃ detail,
       Routes.save_model db active_sessions now model_name theta_0 theta_1 rmse mae
         r2_score sklearn_rmse sklearn_mae sklearn_r2 session_id
       = (Routes.Response (Routes.Failure detail) 401, db)) ∧
  (∃ detail,
     Routes.get_user_models db active_sessions session_id
       = Routes.Response (Routes.Failure detail) 401) ∧
  (∀ model_id,
     (∃ detail,
        Routes.get_model db active_sessions model_id session_id
          = Routes.Response (Routes.Failure detail) 401) ∧
     (∃ detail,
        Routes.delete_model db active_sessions model_id session_id
          = (Routes.Response (Routes.Failure detail) 401, db))).
Proof.
  intros Hno.
  unfold Routes.save_model, Routes.get_user_models, Routes.get_model,
    Routes.delete_model.
  destruct (Routes.no_cookie session_id).
  - split_and!; intros; try split; by eexists.
  - destruct Hno as [? | ->]; [done|]. split_and!; intros; try split; by eexists.
Qed.

(** No cookie at all, and the cookie of a session that was never opened. *)
Lemma model_routes_require_session_witness :
  (∃ detail,
     Routes.get_user_models Sample.db_two_users Sample.bob_sessions None
       = Routes.Response (Routes.Failure detail) 401) ∧
  (∃ detail,
     Routes.delete_model Sample.db_two_users Sample.bob_sessions 2
       (Some "some-other-session"%string)
     = (Routes.Response (Routes.Failure detail) 401, Sample.db_two_users)).
Proof.
  split.
  - apply (model_routes_require_session Sample.db_two_users Sample.bob_sessions None).
    left. reflexivity.
  - apply (model_routes_require_session Sample.db_two_users Sample.bob_sessions
             (Some "some-other-session"%string)).
    right. vm_compute. reflexivity.
Defined.

(** X19. The signin route sets the cookie exactly when it answers 200: it
    never fails; either it answers 200 with the signin result as body and
    sets the cookie [session_id], http-only, with a max-age of 7 days,
    whose value is the session identifier of the body and an active
    session; or it answers 401 with a failure body, sets no cookie and
    leaves the sessions as they were. *)
Theorem signin_route_cookie
    (db : Database.t) (active_sessions : gmap string AuthController.session)
    (rnd : list Z) (username password : string) :
  (∃ result after,
     Routes.signin db active_sessions rnd username password =
       (Return (Routes.Response (Routes.Signin result) 200,
                Some (Routes.Cookie "session_id"
                        (AuthController.si_session_id result) true 604800)),
        after) ∧
     AuthController.is_authenticated after (AuthController.si_session_id result)
       = true) ∨
  Routes.signin db active_sessions rnd username password =
    (Return (Routes.Response (Routes.Failure "Invalid username or password") 401,
             None),
     active_sessions).
Proof.
  unfold Routes.signin.
  destruct (signin_cases db active_sessions rnd username password)
    as [(r & user & Hr & Hname & Hhash & Huser & ->)| ->].
  - left. eexists _, _. split; [reflexivity|]. simpl.
    apply is_authenticated_true, elem_of_dom. rewrite lookup_insert_eq. by eexists.
  - by right.
Qed.


(** X21. The signout route answers 200 whenever a cookie is sent, even for
    a session that does not exist: without a cookie it answers 400 "No
    active session", clears no cookie and changes nothing; with a cookie it
    answers 200 and clears the cookie [session_id], the body says whether
    the session was found, and afterwards the session is not
    authenticated. *)
Theorem signout_route_answers
    (active_sessions : gmap string AuthController.session)
    (session_id : option string) :
  (Routes.no_cookie session_id = true →
   AccountRoutes.signout active_sessions session_id =
     ((AccountRoutes.Response (AccountRoutes.Failure "No active session") 400, None),
      active_sessions)) ∧
  (Routes.no_cookie session_id = false →
   ∃ result after,
     AccountRoutes.signout active_sessions session_id =
       ((AccountRoutes.Response (AccountRoutes.Signout result) 200,
         Some "session_id"%string), after) ∧
     AuthController.so_success result
       = AuthController.is_authenticated active_sessions (default "" session_id) ∧
     AuthController.is_authenticated after (default "" session_id) = false).
Proof.
  unfold AccountRoutes.signout. split; intros Hcookie; rewrite Hcookie; [done|].
  destruct (AuthController.signout active_sessions (default "" session_id))
    as [result after] eqn:Hout.
  exists result, after. split; [done|].
  assert (after = (AuthController.signout active_sessions (default "" session_id)).2)
    as -> by (by rewrite Hout).
  assert (result = (AuthController.signout active_sessions (default "" session_id)).1)
    as -> by (by rewrite Hout).
  split.
  - unfold AuthController.signout, AuthController.is_authenticated.
    by case_bool_decide.
  - apply is_authenticated_false. rewrite signout_lookup. by rewrite decide_True.
Qed.

(** No cookie, and the cookie of a session that was never opened. *)
Lemma signout_route_answers_witness :
  AccountRoutes.signout Sample.bob_sessions None =
    ((AccountRoutes.Response (AccountRoutes.Failure "No active session") 400, None),
     Sample.bob_sessions) ∧
  ∃ result after,
    AccountRoutes.signout Sample.bob_sessions (Some "some-other-session"%string) =
      ((AccountRoutes.Response (AccountRoutes.Signout result) 200,
        Some "session_id"%string), after) ∧
    AuthController.so_success result
      = AuthController.is_authenticated Sample.bob_sessions "some-other-session".
Proof.
  split.
  - apply (signout_route_answers Sample.bob_sessions None). reflexivity.
  - destruct (signout_route_answers Sample.bob_sessions
                (Some "some-other-session"%string)) as [_ Hsent].
    destruct (Hsent eq_refl) as (result & after & Hout & Hfound & _).
    exists result, after. split; [exact Hout|exact Hfound].
Defined.

(** ** Saving through the route *)

Section route_saving.
Import Database.


End route_saving.




(** ** The test script *)

Section test_script.
Import Database.







End test_script.



(** ** The model routes for the owner *)



(** ** Passwords in the table *)

Section hashed.
Import Database.

(** A call adds to [users] only rows whose [password_hash] is a hash. *)
Lemma step_users_hashed (w : Server.world) (c : Server.call) (r : user_row) :
  r ∈ users (Server.db (Server.step w c)) →
  r ∈ users (Server.db w) ∨ ∃ password, u_password_hash r = hash_password password.
Proof.
  destruct c; simpl; try (by left).
  - destruct (create_user (Server.db w) now username password email)
      as [[] db'] eqn:Hcreate; simpl.
    + apply create_user_true_inv in Hcreate as (_ & _ & ->). simpl.
      intros Hr. apply elem_of_app in Hr as [Hr|Hr]; [by left|].
      apply list_elem_of_singleton in Hr as ->. right. by exists password.
    + apply create_user_false_inv in Hcreate as ->. by left.
  - rewrite save_model_users. by left.
  - destruct (signup_cases (Server.db w) now username password email)
      as [(_ & _ & _ & _ & ->)|[_ (detail & ->)]]; simpl; [|by left].
    intros Hr. apply elem_of_app in Hr as [Hr|Hr]; [by left|].
    apply list_elem_of_singleton in Hr as ->. right. by exists password.
Qed.
End hashed.

(** X25. No password is stored as typed: no call writes to the column
    [password_hash] anything but a SHA-256 digest, so, from a state where
    every stored hash is 64 lowercase hexadecimal digits (as at start-up,
    where there is none), every row of [users] after any calls holds such a
    text, and a password of any other length is never equal to what is
    stored for it. *)
Theorem passwords_stored_hashed
    (w : Server.world) (cs : list Server.call) (r : Database.user_row) :
  (∀ x, x ∈ Database.users (Server.db w) →
        Shape.is_hexdigest (Database.u_password_hash x)) →
  r ∈ Database.users (Server.db (Server.run w cs)) →
  Shape.is_hexdigest (Database.u_password_hash r) ∧
  ∀ password, String.length password ≠ 64%nat → Database.u_password_hash r ≠ password.
Proof.
  intros Hw Hr.
  assert (Shape.is_hexdigest (Database.u_password_hash r)) as Hshape.
  { revert w Hw Hr. induction cs as [|c cs IH]; intros w Hw Hr; [by apply Hw|].
    apply (IH (Server.step w c)); [|done].
    intros x Hx. apply step_users_hashed in Hx as [Hx|[password ->]];
      [by apply Hw|apply hexdigest_shape]. }
  split; [done|]. intros password Hlen Heq. apply Hlen.
  rewrite <- Heq. by destruct Hshape.
Qed.

(** Alice's row after the two signups. *)
Lemma passwords_stored_hashed_witness :
  Shape.is_hexdigest (Database.hash_password "secret1") ∧
  Database.hash_password "secret1" ≠ "secret1".
Proof.
  destruct (passwords_stored_hashed Server.boot Sample.two_users_calls
              (Database.UserRow 1 "alice" (Database.hash_password "secret1")
                 (Some "a@x.com"%string) 100)) as [Hshape Hother].
  - intros x Hx. by apply elem_of_nil in Hx.
  - vm_compute. left.
  - split; [exact Hshape|]. by apply Hother.
Defined.
